(** * One-Click Color Picker: the history/selection state machine of [main.py]

    A shallow embedding of [ColorPickerWindow] (PyQt5): the bounded,
    duplicate-free history of sampled colours, the selection cursor, the
    clipboard copy and the (re)registration of the two global hotkeys.

    Conventions of the embedding.
    - Python [int] is [Z]; a colour is the tuple [(r, g, b)] of three ints.
    - Python [str] is [string] (the bytes of its UTF-8 encoding).
    - A handler is a computation in a state-and-exception monad over the
      window object: a raised exception keeps every assignment made before
      it, exactly as Python does, and [try ... except] is [try_except].
    - The answers of the outside world during one run of a handler (the
      pixel sampler, the clipboard, the hotkey registrar) are arguments of
      the handler; effects on the outside world are appended to the [calls]
      trace of the window.
    - [QMetaObject.invokeMethod(..., QueuedConnection)] appends to the
      [pending] queue; the Qt event loop delivers the oldest entry
      ([dispatch]).
    - Handlers run one at a time (no interleaving of threads is modelled). *)

From Stdlib Require Import ZArith List String Ascii Bool Lia.
From Stdlib Require DecimalString.
Import ListNotations.

Local Open Scope string_scope.
Local Open Scope Z_scope.

(** ** Python values *)

Definition rgb : Type := (Z * Z * Z)%type.

Definition rgb_eqb (a b : rgb) : bool :=
  let '(r1, g1, b1) := a in
  let '(r2, g2, b2) := b in
  (r1 =? r2) && (g1 =? g2) && (b1 =? b2).

(** A Python exception, carrying [str(e)]. *)
Inductive result (A : Type) : Type :=
| Ok (a : A)
| Raise (e : string).
Arguments Ok {A} a.
Arguments Raise {A} e.

(** ** The fragment of Python's [str] the program uses *)

Module PyStr.

(** [str(n)] for an int. *)
Definition str_int (n : Z) : string :=
  DecimalString.NilZero.string_of_int (Z.to_int n).

(** [str(t)] for a tuple of three ints: ["(r, g, b)"]. *)
Definition str_tuple (t : rgb) : string :=
  let '(r, g, b) := t in
  "(" ++ str_int r ++ ", " ++ str_int g ++ ", " ++ str_int b ++ ")".

Definition upper_hex_digit (d : N) : ascii :=
  match d with
  | 0%N => "0" | 1%N => "1" | 2%N => "2" | 3%N => "3"
  | 4%N => "4" | 5%N => "5" | 6%N => "6" | 7%N => "7"
  | 8%N => "8" | 9%N => "9" | 10%N => "A" | 11%N => "B"
  | 12%N => "C" | 13%N => "D" | 14%N => "E" | _ => "F"
  end%char.

Fixpoint upper_hex_uint (d : Hexadecimal.uint) : string :=
  match d with
  | Hexadecimal.Nil => ""
  | Hexadecimal.D0 d => String "0" (upper_hex_uint d)
  | Hexadecimal.D1 d => String "1" (upper_hex_uint d)
  | Hexadecimal.D2 d => String "2" (upper_hex_uint d)
  | Hexadecimal.D3 d => String "3" (upper_hex_uint d)
  | Hexadecimal.D4 d => String "4" (upper_hex_uint d)
  | Hexadecimal.D5 d => String "5" (upper_hex_uint d)
  | Hexadecimal.D6 d => String "6" (upper_hex_uint d)
  | Hexadecimal.D7 d => String "7" (upper_hex_uint d)
  | Hexadecimal.D8 d => String "8" (upper_hex_uint d)
  | Hexadecimal.D9 d => String "9" (upper_hex_uint d)
  | Hexadecimal.Da d => String "A" (upper_hex_uint d)
  | Hexadecimal.Db d => String "B" (upper_hex_uint d)
  | Hexadecimal.Dc d => String "C" (upper_hex_uint d)
  | Hexadecimal.Dd d => String "D" (upper_hex_uint d)
  | Hexadecimal.De d => String "E" (upper_hex_uint d)
  | Hexadecimal.Df d => String "F" (upper_hex_uint d)
  end.

Fixpoint zeros (n : nat) : string :=
  match n with
  | O => ""
  | S n => String "0" (zeros n)
  end.

(** ["{:02X}".format(n)]: upper-case hexadecimal, the sign first, then
    zeros up to a total width of two characters. *)
Definition format_02X (n : Z) : string :=
  let sign := if n <? 0 then "-" else "" in
  let digits := upper_hex_uint (N.to_hex_uint (Z.abs_N n)) in
  sign ++ zeros (2 - String.length sign - String.length digits) ++ digits.

(** White space that takes one byte. The rows [str.split()] and [int()]
    are applied to are ASCII. *)
Definition is_space (c : ascii) : bool :=
  let n := nat_of_ascii c in
  ((9 <=? n) && (n <=? 13) || (28 <=? n) && (n <=? 32))%nat.

Definition is_empty (s : string) : bool :=
  match s with
  | EmptyString => true
  | String _ _ => false
  end.

Definition snoc (s : string) (c : ascii) : string := s ++ String c "".

(** [s.split()]: the maximal runs of non-space characters; [cur] is the
    run being read. *)
Fixpoint split_ws_from (cur s : string) : list string :=
  match s with
  | EmptyString => if is_empty cur then [] else [cur]
  | String c s' =>
      if is_space c
      then (if is_empty cur then split_ws_from "" s'
            else cur :: split_ws_from "" s')
      else split_ws_from (snoc cur c) s'
  end.

Definition split (s : string) : list string := split_ws_from "" s.

(** [s.split(sep)] for a one-character separator. *)
Fixpoint split_on_from (sep : ascii) (cur s : string) : list string :=
  match s with
  | EmptyString => [cur]
  | String c s' =>
      if Ascii.eqb c sep
      then cur :: split_on_from sep "" s'
      else split_on_from sep (snoc cur c) s'
  end.

Definition split_on (sep : ascii) (s : string) : list string :=
  split_on_from sep "" s.

Fixpoint mem (c : ascii) (chars : string) : bool :=
  match chars with
  | EmptyString => false
  | String d chars' => Ascii.eqb c d || mem c chars'
  end.

Fixpoint lstrip (drop : ascii -> bool) (s : string) : string :=
  match s with
  | EmptyString => ""
  | String c s' => if drop c then lstrip drop s' else s
  end.

Fixpoint rstrip (drop : ascii -> bool) (s : string) : string :=
  match s with
  | EmptyString => ""
  | String c s' =>
      let r := rstrip drop s' in
      if is_empty r && drop c then "" else String c r
  end.

(** [s.strip(chars)] *)
Definition strip (chars : string) (s : string) : string :=
  rstrip (fun c => mem c chars) (lstrip (fun c => mem c chars) s).

(** The white space of [str.strip()] beyond ASCII, as UTF-8: U+0085 and
    U+00A0 take two bytes; U+1680, U+2000-U+200A, U+2028, U+2029, U+202F,
    U+205F and U+3000 take three. *)
Definition space2 (x y : nat) : bool :=
  ((x =? 194) && ((y =? 133) || (y =? 160)))%nat.

Definition space3 (x y z : nat) : bool :=
  ((x =? 225) && (y =? 154) && (z =? 128)
   || (x =? 226) && (y =? 128)
      && ((128 <=? z) && (z <=? 138) || (z =? 168) || (z =? 169)
          || (z =? 175))
   || (x =? 226) && (y =? 129) && (z =? 159)
   || (x =? 227) && (y =? 128) && (z =? 128))%nat.

(** [s.lstrip()]: the white-space characters at the front are dropped. *)
Fixpoint lstrip_ws (s : string) : string :=
  match s with
  | EmptyString => ""
  | String a r =>
      if is_space a then lstrip_ws r
      else
        match r with
        | EmptyString => s
        | String b r' =>
            if space2 (nat_of_ascii a) (nat_of_ascii b) then lstrip_ws r'
            else
              match r' with
              | EmptyString => s
              | String c r'' =>
                  if space3 (nat_of_ascii a) (nat_of_ascii b)
                       (nat_of_ascii c)
                  then lstrip_ws r''
                  else s
              end
        end
  end.

(** The str consists of white-space characters only. *)
Fixpoint all_space (s : string) : bool :=
  match s with
  | EmptyString => true
  | String a r =>
      if is_space a then all_space r
      else
        match r with
        | EmptyString => false
        | String b r' =>
            if space2 (nat_of_ascii a) (nat_of_ascii b) then all_space r'
            else
              match r' with
              | EmptyString => false
              | String c r'' =>
                  space3 (nat_of_ascii a) (nat_of_ascii b) (nat_of_ascii c)
                  && all_space r''
              end
        end
  end.

(** [s.rstrip()]: the str is cut where its white-space tail starts. No
    white-space character starts with a continuation byte, so the cut falls
    between two characters. *)
Fixpoint rstrip_ws (s : string) : string :=
  match s with
  | EmptyString => ""
  | String a r => if all_space s then "" else String a (rstrip_ws r)
  end.

(** [s.strip()] *)
Definition strip_ws (s : string) : string := rstrip_ws (lstrip_ws s).

Definition digit_value (c : ascii) : option Z :=
  let n := nat_of_ascii c in
  if ((48 <=? n) && (n <=? 57))%nat then Some (Z.of_nat n - 48) else None.

(** The digits of an int literal, most significant first; a single
    underscore is allowed between two digits. [after_digit] tells whether
    the previous character was a digit. *)
Fixpoint parse_digits (acc : Z) (after_digit : bool) (s : string)
  : option Z :=
  match s with
  | EmptyString => if after_digit then Some acc else None
  | String c s' =>
      match digit_value c with
      | Some d => parse_digits (10 * acc + d) true s'
      | None =>
          if Ascii.eqb c "_" && after_digit
          then match s' with
               | EmptyString => None
               | String c' _ =>
                   match digit_value c' with
                   | Some _ => parse_digits acc false s'
                   | None => None
                   end
               end
          else None
      end
  end.

(** [int(s)] on a str of ASCII characters: surrounding white space, an
    optional sign, decimal digits. *)
Definition int (s : string) : result Z :=
  let t := rstrip is_space (lstrip is_space s) in
  let bad := Raise ("invalid literal for int() with base 10: '" ++ s ++ "'") in
  match t with
  | String "-" t' =>
      match parse_digits 0 false t' with
      | Some n => Ok (- n)
      | None => bad
      end
  | String "+" t' =>
      match parse_digits 0 false t' with
      | Some n => Ok n
      | None => bad
      end
  | _ =>
      match parse_digits 0 false t with
      | Some n => Ok n
      | None => bad
      end
  end.

(** [sep.join(parts)] *)
Fixpoint join (sep : string) (parts : list string) : string :=
  match parts with
  | [] => ""
  | [p] => p
  | p :: rest => p ++ sep ++ join sep rest
  end.

End PyStr.

(** [rgb_to_hex], line 27. *)
Definition rgb_to_hex (r g b : Z) : string :=
  "#" ++ PyStr.format_02X r ++ PyStr.format_02X g ++ PyStr.format_02X b.

Definition rgb_to_hex_t (c : rgb) : string :=
  let '(r, g, b) := c in rgb_to_hex r g b.

(** ** [collections.deque] with [maxlen] *)

Module Deque.

Record t : Type := mk { items : list rgb; maxlen : nat }.

(** [deque(maxlen=m)] *)
Definition empty (m : nat) : t := mk [] m.

Definition len (d : t) : Z := Z.of_nat (List.length (items d)).

(** [x in d] *)
Definition contains (x : rgb) (d : t) : bool :=
  existsb (rgb_eqb x) (items d).

Fixpoint remove_first (x : rgb) (l : list rgb) : option (list rgb) :=
  match l with
  | [] => None
  | y :: l' =>
      if rgb_eqb y x then Some l'
      else match remove_first x l' with
           | Some r => Some (y :: r)
           | None => None
           end
  end.

(** [d.remove(x)]: drops the first occurrence, [ValueError] if none. *)
Definition remove (x : rgb) (d : t) : result t :=
  match remove_first x (items d) with
  | Some l => Ok (mk l (maxlen d))
  | None => Raise "deque.remove(x): x not in deque"
  end.

(** [d.appendleft(x)]: push on the left, then pop on the right when the
    deque has grown past [maxlen]. *)
Definition appendleft (x : rgb) (d : t) : t :=
  let l := x :: items d in
  mk (if (maxlen d <? List.length l)%nat then removelast l else l) (maxlen d).

(** [d.clear()] *)
Definition clear (d : t) : t := mk [] (maxlen d).

(** [deque(l, maxlen=m)]: the elements are appended on the right one by
    one, so the last [m] of them remain. *)
Definition of_list (l : list rgb) (m : nat) : t :=
  mk (skipn (List.length l - m) l) m.

End Deque.

(** ** The window object *)

(** The two callbacks handed to [keyboard.add_hotkey]. *)
Inductive action : Type := Pick | Copy.

(** What [keyboard.add_hotkey] returns. *)
Definition handle : Type := nat.

(** Method invocations posted with [Qt.QueuedConnection]. *)
Inductive ui_call : Type :=
| LabelRgbSetText (text : string)
| LabelHexSetText (text : string)
| SwatchSetStyleSheet (style : string)
| RefreshHistoryList
| SetStatus (text : string)
| ShowErrorBox (text : string).

(** Calls that act on the outside world. *)
Inductive ext_call : Type :=
| RemoveHotkey (h : handle)
| AddHotkey (pattern : string) (callback : action)
| ClipboardCopy (text : string)
| WarningBox (title text : string).

(** The widgets: their texts, and the rows and current row of the
    [QListWidget] ([-1] when there is no current row). *)
Record Widgets : Type := {
  swatch : string;
  label_rgb : string;
  label_hex : string;
  status : string;
  btn_pick : string;
  btn_copy : string;
  list_items : list string;
  list_row : Z
}.

Record Window : Type := {
  pick_hotkey : string;
  copy_hotkey : string;
  pick_handler : option handle;
  copy_handler : option handle;
  history : Deque.t;
  history_index : Z;
  current_rgb : option rgb;
  selected_rgb : option rgb;
  ui : Widgets;
  pending : list ui_call;
  calls : list ext_call
}.

(** Field assignments. *)

Definition with_swatch (v : string) (u : Widgets) : Widgets :=
  {| swatch := v; label_rgb := label_rgb u; label_hex := label_hex u;
     status := status u; btn_pick := btn_pick u; btn_copy := btn_copy u;
     list_items := list_items u; list_row := list_row u |}.

Definition with_label_rgb (v : string) (u : Widgets) : Widgets :=
  {| swatch := swatch u; label_rgb := v; label_hex := label_hex u;
     status := status u; btn_pick := btn_pick u; btn_copy := btn_copy u;
     list_items := list_items u; list_row := list_row u |}.

Definition with_label_hex (v : string) (u : Widgets) : Widgets :=
  {| swatch := swatch u; label_rgb := label_rgb u; label_hex := v;
     status := status u; btn_pick := btn_pick u; btn_copy := btn_copy u;
     list_items := list_items u; list_row := list_row u |}.

Definition with_status (v : string) (u : Widgets) : Widgets :=
  {| swatch := swatch u; label_rgb := label_rgb u; label_hex := label_hex u;
     status := v; btn_pick := btn_pick u; btn_copy := btn_copy u;
     list_items := list_items u; list_row := list_row u |}.

Definition with_btn_pick (v : string) (u : Widgets) : Widgets :=
  {| swatch := swatch u; label_rgb := label_rgb u; label_hex := label_hex u;
     status := status u; btn_pick := v; btn_copy := btn_copy u;
     list_items := list_items u; list_row := list_row u |}.

Definition with_btn_copy (v : string) (u : Widgets) : Widgets :=
  {| swatch := swatch u; label_rgb := label_rgb u; label_hex := label_hex u;
     status := status u; btn_pick := btn_pick u; btn_copy := v;
     list_items := list_items u; list_row := list_row u |}.

Definition with_list_items (v : list string) (u : Widgets) : Widgets :=
  {| swatch := swatch u; label_rgb := label_rgb u; label_hex := label_hex u;
     status := status u; btn_pick := btn_pick u; btn_copy := btn_copy u;
     list_items := v; list_row := list_row u |}.

Definition with_list_row (v : Z) (u : Widgets) : Widgets :=
  {| swatch := swatch u; label_rgb := label_rgb u; label_hex := label_hex u;
     status := status u; btn_pick := btn_pick u; btn_copy := btn_copy u;
     list_items := list_items u; list_row := v |}.

(** [QListWidget.setCurrentRow]: with a row the list does not have, the
    list is left without a current row. *)
Definition setCurrentRow (row : Z) (u : Widgets) : Widgets :=
  with_list_row
    (if (0 <=? row) && (row <? Z.of_nat (List.length (list_items u)))
     then row else -1) u.

Definition set_pick_hotkey (v : string) (w : Window) : Window :=
  {| pick_hotkey := v; copy_hotkey := copy_hotkey w;
     pick_handler := pick_handler w; copy_handler := copy_handler w;
     history := history w; history_index := history_index w;
     current_rgb := current_rgb w; selected_rgb := selected_rgb w;
     ui := ui w; pending := pending w; calls := calls w |}.

Definition set_copy_hotkey (v : string) (w : Window) : Window :=
  {| pick_hotkey := pick_hotkey w; copy_hotkey := v;
     pick_handler := pick_handler w; copy_handler := copy_handler w;
     history := history w; history_index := history_index w;
     current_rgb := current_rgb w; selected_rgb := selected_rgb w;
     ui := ui w; pending := pending w; calls := calls w |}.

Definition set_pick_handler (v : option handle) (w : Window) : Window :=
  {| pick_hotkey := pick_hotkey w; copy_hotkey := copy_hotkey w;
     pick_handler := v; copy_handler := copy_handler w; history := history w;
     history_index := history_index w; current_rgb := current_rgb w;
     selected_rgb := selected_rgb w; ui := ui w; pending := pending w;
     calls := calls w |}.

Definition set_copy_handler (v : option handle) (w : Window) : Window :=
  {| pick_hotkey := pick_hotkey w; copy_hotkey := copy_hotkey w;
     pick_handler := pick_handler w; copy_handler := v; history := history w;
     history_index := history_index w; current_rgb := current_rgb w;
     selected_rgb := selected_rgb w; ui := ui w; pending := pending w;
     calls := calls w |}.

Definition set_history (v : Deque.t) (w : Window) : Window :=
  {| pick_hotkey := pick_hotkey w; copy_hotkey := copy_hotkey w;
     pick_handler := pick_handler w; copy_handler := copy_handler w;
     history := v; history_index := history_index w;
     current_rgb := current_rgb w; selected_rgb := selected_rgb w;
     ui := ui w; pending := pending w; calls := calls w |}.

Definition set_history_index (v : Z) (w : Window) : Window :=
  {| pick_hotkey := pick_hotkey w; copy_hotkey := copy_hotkey w;
     pick_handler := pick_handler w; copy_handler := copy_handler w;
     history := history w; history_index := v; current_rgb := current_rgb w;
     selected_rgb := selected_rgb w; ui := ui w; pending := pending w;
     calls := calls w |}.

Definition set_current_rgb (v : option rgb) (w : Window) : Window :=
  {| pick_hotkey := pick_hotkey w; copy_hotkey := copy_hotkey w;
     pick_handler := pick_handler w; copy_handler := copy_handler w;
     history := history w; history_index := history_index w;
     current_rgb := v; selected_rgb := selected_rgb w; ui := ui w;
     pending := pending w; calls := calls w |}.

Definition set_selected_rgb (v : option rgb) (w : Window) : Window :=
  {| pick_hotkey := pick_hotkey w; copy_hotkey := copy_hotkey w;
     pick_handler := pick_handler w; copy_handler := copy_handler w;
     history := history w; history_index := history_index w;
     current_rgb := current_rgb w; selected_rgb := v; ui := ui w;
     pending := pending w; calls := calls w |}.

Definition set_ui (v : Widgets) (w : Window) : Window :=
  {| pick_hotkey := pick_hotkey w; copy_hotkey := copy_hotkey w;
     pick_handler := pick_handler w; copy_handler := copy_handler w;
     history := history w; history_index := history_index w;
     current_rgb := current_rgb w; selected_rgb := selected_rgb w; ui := v;
     pending := pending w; calls := calls w |}.

Definition set_pending (v : list ui_call) (w : Window) : Window :=
  {| pick_hotkey := pick_hotkey w; copy_hotkey := copy_hotkey w;
     pick_handler := pick_handler w; copy_handler := copy_handler w;
     history := history w; history_index := history_index w;
     current_rgb := current_rgb w; selected_rgb := selected_rgb w;
     ui := ui w; pending := v; calls := calls w |}.

Definition set_calls (v : list ext_call) (w : Window) : Window :=
  {| pick_hotkey := pick_hotkey w; copy_hotkey := copy_hotkey w;
     pick_handler := pick_handler w; copy_handler := copy_handler w;
     history := history w; history_index := history_index w;
     current_rgb := current_rgb w; selected_rgb := selected_rgb w;
     ui := ui w; pending := pending w; calls := v |}.


(** ** Handlers: state and exceptions *)

Definition M (A : Type) : Type := Window -> result A * Window.

Definition ret {A : Type} (a : A) : M A := fun w => (Ok a, w).

Definition bind {A B : Type} (m : M A) (k : A -> M B) : M B :=
  fun w =>
    match m w with
    | (Ok a, w') => k a w'
    | (Raise e, w') => (Raise e, w')
    end.

Declare Scope py_scope.
Delimit Scope py_scope with py.
Notation "x <- m ;; k" := (bind m (fun x => k))
  (at level 61, m at next level, right associativity) : py_scope.
Notation "' p <- m ;; k" := (bind m (fun x => let 'p := x in k))
  (at level 61, p pattern, m at next level, right associativity) : py_scope.
Notation "m ;; k" := (bind m (fun _ => k))
  (at level 61, right associativity) : py_scope.
Local Open Scope py_scope.

(** Read an attribute of [self]. *)
Definition gets {A : Type} (f : Window -> A) : M A := fun w => (Ok (f w), w).

(** Assign attributes of [self]. *)
Definition modify (f : Window -> Window) : M unit := fun w => (Ok tt, f w).

(** The value or the exception of a call that leaves [self] alone. *)
Definition lift {A : Type} (r : result A) : M A := fun w => (r, w).

(** [try: body except Exception as e: handler(e)]; the handler starts from
    the state the body had reached when it raised. *)
Definition try_except {A : Type} (body : M A) (handler : string -> M A)
  : M A :=
  fun w =>
    match body w with
    | (Ok a, w') => (Ok a, w')
    | (Raise e, w') => handler e w'
    end.

(** [QMetaObject.invokeMethod(..., Qt.QueuedConnection, ...)] *)
Definition invoke (c : ui_call) : M unit :=
  modify (fun w => set_pending (pending w ++ [c])%list w).

(** What PyQt5 raises when [invokeMethod] fails. *)
Definition invoke_failed : string := "QMetaObject.invokeMethod() call failed".

(** [QMetaObject.invokeMethod] with the name of a method that is not a
    slot: PyQt5 finds no such method, queues nothing and raises
    [RuntimeError]. *)
Definition invoke_refused : M unit := fun w => (Raise invoke_failed, w).

(** [threading.Thread(target=body, daemon=True).start()], the thread run
    to its end: an exception ends the thread and does not reach the code
    that started it. *)
Definition thread (body : M unit) : M unit :=
  try_except body (fun _ => ret tt).

(** A call to an outside collaborator, with the answer it gives. *)
Definition extern {A : Type} (c : ext_call) (answer : result A) : M A :=
  modify (fun w => set_calls (calls w ++ [c])%list w) ;; lift answer.

(** Assign to a widget. *)
Definition widget (f : Widgets -> Widgets) : M unit :=
  modify (fun w => set_ui (f (ui w)) w).

(** The window after a handler has run. *)
Definition exec {A : Type} (m : M A) (w : Window) : Window := snd (m w).

(** Line 21; the [__main__] block assigns the same value again. *)
Definition MAX_HISTORY : nat := 10.
Definition DEFAULT_PICK_HOTKEY : string := "e".
Definition DEFAULT_COPY_HOTKEY : string := "ctrl+c".

(** [update_button_labels], line 130. *)
Definition update_button_labels : M unit :=
  p <- gets pick_hotkey ;;
  widget (with_btn_pick ("手动取色 (" ++ p ++ ")")) ;;
  c <- gets copy_hotkey ;;
  widget (with_btn_copy ("复制到剪贴板 (" ++ c ++ ")")).

(** The object built by [__init__] (line 63) before the registration thread
    and [update_button_labels] run; [max_history] is the value of
    [MAX_HISTORY] when the deque is created. *)
Definition new_window (max_history : nat) : Window :=
  {| pick_hotkey := DEFAULT_PICK_HOTKEY;
     copy_hotkey := DEFAULT_COPY_HOTKEY;
     pick_handler := None;
     copy_handler := None;
     history := Deque.empty max_history;
     history_index := 0;
     current_rgb := None;
     selected_rgb := None;
     ui := {| swatch := ""; label_rgb := "RGB: -"; label_hex := "HEX: -";
              status := "初始化中…"; btn_pick := ""; btn_copy := "";
              list_items := []; list_row := -1 |};
     pending := [];
     calls := [] |}.

(** The window when [__init__] returns. *)
Definition init_window (max_history : nat) : Window :=
  exec update_button_labels (new_window max_history).

(** The answers of [keyboard.remove_hotkey] and [keyboard.add_hotkey] at the
    four call sites of [register_hotkeys]. *)
Record registrar : Type := {
  remove_pick : result unit;
  remove_copy : result unit;
  add_pick : result handle;
  add_copy : result handle
}.

(** [register_hotkeys], line 135. A handler is truthy exactly when it is
    not [None]. The last statement, line 170, names [update_button_labels],
    which line 130 defines without [pyqtSlot]: the invocation is refused,
    outside any [try]. *)
Definition register_hotkeys (env : registrar) : M unit :=
  try_except
    (h <- gets pick_handler ;;
     match h with
     | Some old =>
         extern (RemoveHotkey old) (remove_pick env) ;;
         modify (set_pick_handler None)
     | None => ret tt
     end)
    (fun _ => ret tt) ;;
  try_except
    (h <- gets copy_handler ;;
     match h with
     | Some old =>
         extern (RemoveHotkey old) (remove_copy env) ;;
         modify (set_copy_handler None)
     | None => ret tt
     end)
    (fun _ => ret tt) ;;
  let errors : list string := [] in
  errors <-
    try_except
      (p <- gets pick_hotkey ;;
       h <- extern (AddHotkey p Pick) (add_pick env) ;;
       modify (set_pick_handler (Some h)) ;;
       ret errors)
      (fun e =>
         let errors := (errors ++ [("注册取色热键失败: " ++ e)%string])%list in
         modify (set_pick_handler None) ;;
         ret errors) ;;
  errors <-
    try_except
      (c <- gets copy_hotkey ;;
       h <- extern (AddHotkey c Copy) (add_copy env) ;;
       modify (set_copy_handler (Some h)) ;;
       ret errors)
      (fun e =>
         let errors := (errors ++ [("注册复制热键失败: " ++ e)%string])%list in
         modify (set_copy_handler None) ;;
         ret errors) ;;
  match errors with
  | _ :: _ =>
      let txt := PyStr.join "；" errors in
      invoke (SetStatus txt) ;;
      invoke (ShowErrorBox txt)
  | [] =>
      p <- gets pick_hotkey ;;
      c <- gets copy_hotkey ;;
      invoke (SetStatus ("热键已注册：取色 " ++ p ++ " / 复制 " ++ c))
  end ;;
  invoke_refused.

(** [show_error_box], line 173. *)
Definition show_error_box (text : string) : M unit :=
  extern
    (WarningBox "热键注册失败"
       (text ++ String "010" (String "010"
          "可能原因：热键格式不对或权限不足。试试换一个组合键（例如 ctrl+alt+v）。")))
    (Ok tt).

(** [set_status], line 177. *)
Definition set_status (text : string) : M unit :=
  widget (with_status text).

(** What the settings dialog returns: [None] when it is cancelled, the two
    line edits' texts when it is accepted. *)
Definition dialog : Type := option (string * string).

(** [HotkeySettingsDialog.get_values], line 59. *)
Definition get_values (texts : string * string) : string * string :=
  (PyStr.strip_ws (fst texts), PyStr.strip_ws (snd texts)).

(** [open_settings], line 180. *)
Definition open_settings (dlg : dialog) (env : registrar) : M unit :=
  match dlg with
  | Some texts =>
      let '(new_pick, new_copy) := get_values texts in
      if PyStr.is_empty new_pick || PyStr.is_empty new_copy
      then extern
             (WarningBox "输入错误" "热键不能为空，请输入有效的热键字符串。")
             (Ok tt)
      else
        modify (set_pick_hotkey new_pick) ;;
        modify (set_copy_hotkey new_copy) ;;
        update_button_labels ;;
        thread (register_hotkeys env)
  | None => ret tt
  end.

(** [seq[i]] for a Python sequence, negative indices included. *)
Definition getitem {A : Type} (l : list A) (i : Z) : result A :=
  let n := Z.of_nat (List.length l) in
  let j := if i <? 0 then i + n else i in
  if (0 <=? j) && (j <? n)
  then match nth_error l (Z.to_nat j) with
       | Some a => Ok a
       | None => Raise "index out of range"
       end
  else Raise "index out of range".

(** [a, b, c = seq] *)
Definition unpack3 {A : Type} (l : list A) : result (A * A * A) :=
  match l with
  | [a; b; c] => Ok (a, b, c)
  | _ :: _ :: _ :: _ :: _ => Raise "too many values to unpack (expected 3)"
  | _ => Raise "not enough values to unpack (expected 3)"
  end.

(** The answers of [pyautogui.position()] and of the [pyautogui.pixel]
    call that follows it. *)
Record sampler : Type := {
  position : result (Z * Z);
  pixel : result rgb
}.

(** Lines 210-219: the colour moves to, or enters at, the left end. *)
Definition history_add (c : rgb) : M unit :=
  h <- gets history ;;
  if Deque.contains c h
  then
    h' <- lift (Deque.remove c h) ;;
    modify (set_history h') ;;
    modify (fun w => set_history (Deque.appendleft c (history w)) w)
  else
    modify (fun w => set_history (Deque.appendleft c (history w)) w).

(** Lines 222-226: the deque rebuilt from a list. *)
Definition history_rebuild (c : rgb) : M unit :=
  h <- gets history ;;
  let lst := filter (fun x => negb (rgb_eqb x c)) (Deque.items h) in
  let lst := c :: lst in
  let lst := firstn (Deque.maxlen h) lst in
  modify (set_history (Deque.of_list lst (Deque.maxlen h))).

(** [pick_under_cursor], line 192. *)
Definition pick_under_cursor (env : sampler) : M unit :=
  try_except
    ('(x, y) <- lift (position env) ;;
     '(r, g, b) <- lift (pixel env) ;;
     modify (set_current_rgb (Some (r, g, b))) ;;
     let hexc := rgb_to_hex r g b in
     invoke (LabelRgbSetText
               ("RGB: " ++ PyStr.str_int r ++ ", " ++ PyStr.str_int g ++ ", "
                ++ PyStr.str_int b ++ "  (pos: " ++ PyStr.str_int x ++ ","
                ++ PyStr.str_int y ++ ")")) ;;
     invoke (LabelHexSetText ("HEX: " ++ hexc)) ;;
     invoke (SwatchSetStyleSheet
               ("background-color: " ++ hexc ++ "; border: 1px solid #000;")) ;;
     try_except
       (history_add (r, g, b))
       (fun _ => history_rebuild (r, g, b)) ;;
     modify (set_history_index 0) ;;
     invoke RefreshHistoryList ;;
     modify (fun w =>
               set_selected_rgb
                 (match Deque.items (history w) with
                  | first :: _ => Some first
                  | [] => current_rgb w
                  end) w) ;;
     invoke (SetStatus ("已采样并加入/更新历史: " ++ hexc)))
    (fun e => invoke (SetStatus ("取色失败: " ++ e))).

(** The text of a row of the list, line 244. *)
Definition item_text (c : rgb) : string :=
  rgb_to_hex_t c ++ "    " ++ PyStr.str_tuple c.

(** [refresh_history_list], line 240. *)
Definition refresh_history_list : M unit :=
  widget (fun u => with_list_row (-1) (with_list_items [] u)) ;;
  h <- gets history ;;
  widget (with_list_items (map item_text (Deque.items h))) ;;
  count <- gets (fun w => Z.of_nat (List.length (list_items (ui w)))) ;;
  if 0 <? count
  then
    i <- gets history_index ;;
    let idx := Z.max 0 (Z.min i (count - 1)) in
    widget (setCurrentRow idx)
  else ret tt.

(** [on_history_clicked], line 254; [txt] is [item.text()]. *)
Definition on_history_clicked (txt : string) : M unit :=
  try_except
    (part <- lift (getitem (PyStr.split txt) (-1)) ;;
     '(r, g, b) <- lift (unpack3 (PyStr.split_on "," (PyStr.strip "()" part))) ;;
     r <- lift (PyStr.int r) ;;
     g <- lift (PyStr.int g) ;;
     b <- lift (PyStr.int b) ;;
     let rgb := (r, g, b) in
     modify (set_selected_rgb (Some rgb)) ;;
     row <- gets (fun w => list_row (ui w)) ;;
     modify (set_history_index row) ;;
     let hexc := rgb_to_hex_t rgb in
     widget (with_status ("手动选择: " ++ hexc)) ;;
     widget (with_swatch
               ("background-color: " ++ hexc ++ "; border: 1px solid #000;")) ;;
     widget (with_label_hex ("HEX: " ++ hexc)) ;;
     widget (with_label_rgb ("RGB: " ++ PyStr.str_tuple rgb)))
    (fun _ => widget (with_status "选择历史项出错")).

(** [copy_selected_color], line 271; [clip] is the answer of
    [pyperclip.copy]. A tuple of three ints is truthy, [None] is not. *)
Definition copy_selected_color (clip : result unit) : M unit :=
  let write (c : rgb) : M unit :=
    let hexc := rgb_to_hex_t c in
    try_except
      (extern (ClipboardCopy hexc) clip ;;
       invoke (SetStatus ("已复制: " ++ hexc)))
      (fun e => invoke (SetStatus ("复制失败: " ++ e))) in
  sel <- gets selected_rgb ;;
  match sel with
  | None =>
      h <- gets history ;;
      match Deque.items h with
      | first :: _ => write first
      | [] =>
          cur <- gets current_rgb ;;
          match cur with
          | Some c => write c
          | None => invoke (SetStatus "无可复制颜色")
          end
      end
  | Some c => write c
  end.

(** [clear_history], line 293. *)
Definition clear_history : M unit :=
  modify (fun w => set_history (Deque.clear (history w)) w) ;;
  widget (fun u => with_list_row (-1) (with_list_items [] u)) ;;
  modify (set_selected_rgb None) ;;
  modify (set_history_index 0) ;;
  set_status "历史已清空".

(** [select_history_index], line 311. *)
Definition select_history_index (index : Z) : M unit :=
  h <- gets history ;;
  match Deque.items h with
  | [] => ret tt
  | _ :: _ =>
      let index := Z.max 0 (Z.min index (Deque.len h - 1)) in
      modify (set_history_index index) ;;
      rgb <- lift (getitem (Deque.items h) index) ;;
      modify (set_selected_rgb (Some rgb)) ;;
      let hexc := rgb_to_hex_t rgb in
      widget (with_swatch
                ("background-color: " ++ hexc ++ "; border: 1px solid #000;")) ;;
      widget (with_label_hex ("HEX: " ++ hexc)) ;;
      widget (with_label_rgb ("RGB: " ++ PyStr.str_tuple rgb)) ;;
      widget (setCurrentRow index) ;;
      set_status ("已切换历史: " ++ hexc)
  end.

Inductive key : Type := Key_Up | Key_Down | Key_Other.

(** [keyPressEvent], line 329; Python's [%] with a positive right operand
    is [Z.modulo]. The inherited [keyPressEvent] leaves the window as it
    is. *)
Definition keyPressEvent (k : key) : M unit :=
  h <- gets history ;;
  match Deque.items h with
  | [] => ret tt
  | _ :: _ =>
      let n := Deque.len h in
      match k with
      | Key_Up =>
          i <- gets history_index ;;
          let new_index := (i - 1) mod n in
          select_history_index new_index
      | Key_Down =>
          i <- gets history_index ;;
          let new_index := (i + 1) mod n in
          select_history_index new_index
      | Key_Other => ret tt
      end
  end.

(** The answers of [keyboard.remove_hotkey] at the two call sites of
    [closeEvent]. *)
Record closing : Type := {
  close_pick : result unit;
  close_copy : result unit
}.

(** [closeEvent], line 300: one [try] around both removals; the handler
    attributes are not assigned. [event.accept()] acts on the Qt event
    only. *)
Definition closeEvent (env : closing) : M unit :=
  try_except
    (h <- gets pick_handler ;;
     match h with
     | Some old => extern (RemoveHotkey old) (close_pick env)
     | None => ret tt
     end ;;
     h <- gets copy_handler ;;
     match h with
     | Some old => extern (RemoveHotkey old) (close_copy env)
     | None => ret tt
     end)
    (fun _ => ret tt).

(** ** The event loop *)

(** A queued invocation reaches its slot. *)
Definition dispatch (c : ui_call) : M unit :=
  match c with
  | LabelRgbSetText text => widget (with_label_rgb text)
  | LabelHexSetText text => widget (with_label_hex text)
  | SwatchSetStyleSheet style => widget (with_swatch style)
  | RefreshHistoryList => refresh_history_list
  | SetStatus text => set_status text
  | ShowErrorBox text => show_error_box text
  end.

(** The oldest queued invocation is delivered. *)
Definition deliver : M unit :=
  q <- gets pending ;;
  match q with
  | [] => ret tt
  | c :: rest => modify (set_pending rest) ;; dispatch c
  end.

(** A click on a row of the list: Qt makes the row current, then emits
    [itemClicked] with its item. *)
Definition click (row : nat) : M unit :=
  items <- gets (fun w => list_items (ui w)) ;;
  match nth_error items row with
  | Some txt =>
      widget (with_list_row (Z.of_nat row)) ;;
      on_history_clicked txt
  | None => ret tt
  end.

(** What can happen to the window, with the answers of the outside. *)
Inductive event : Type :=
| DoPick (env : sampler)
| DoCopy (clip : result unit)
| DoClear
| DoKey (k : key)
| DoClick (row : nat)
| DoSettings (dlg : dialog) (env : registrar)
| DoRegister (env : registrar)
| DoDeliver.

Definition handler (e : event) : M unit :=
  match e with
  | DoPick env => pick_under_cursor env
  | DoCopy clip => copy_selected_color clip
  | DoClear => clear_history
  | DoKey k => keyPressEvent k
  | DoClick row => click row
  | DoSettings dlg env => open_settings dlg env
  | DoRegister env => register_hotkeys env
  | DoDeliver => deliver
  end.

Definition step (w : Window) (e : event) : Window := exec (handler e) w.

Definition run (w : Window) (es : list event) : Window := fold_left step es w.

(** A successful sample of colour [c] at the origin, and a failing one. *)
Definition sampled (c : rgb) : sampler :=
  {| position := Ok (0, 0); pixel := Ok c |}.

Definition unreadable (e : string) : sampler :=
  {| position := Ok (0, 0); pixel := Raise e |}.

(** ** Notions used in the statements *)

(** Every character of [s] satisfies [p]. *)
Fixpoint all (p : ascii -> bool) (s : string) : bool :=
  match s with
  | EmptyString => true
  | String c s' => p c && all p s'
  end.

(** Neither white space nor a comma. *)
Definition plain (c : ascii) : bool :=
  negb (PyStr.is_space c) && negb (Ascii.eqb c ",").

(** The two upper-case hexadecimal digits of a byte. *)
Definition hex2 (n : Z) : string :=
  String (PyStr.upper_hex_digit (Z.to_N (n / 16)))
    (String (PyStr.upper_hex_digit (Z.to_N (n mod 16))) "").

Definition uint8 (n : Z) : Prop := 0 <= n <= 255.

(** The colours of the history, newest first. *)
Definition colours (w : Window) : list rgb := Deque.items (history w).

(** The deque after lines 210-219 have run for colour [c]. *)
Definition moved_to_front (c : rgb) (d : Deque.t) : Deque.t :=
  Deque.appendleft c
    (match Deque.remove_first c (Deque.items d) with
     | Some l => Deque.mk l (Deque.maxlen d)
     | None => d
     end).

(** A successful sample of colour [c] with the pointer at [(x, y)]. *)
Definition sampled_at (x y : Z) (c : rgb) : sampler :=
  {| position := Ok (x, y); pixel := Ok c |}.

(** The colour a run of [pick_under_cursor] samples, if it samples one. *)
Definition sample_of (env : sampler) : option rgb :=
  match position env, pixel env with
  | Ok _, Ok c => Some c
  | _, _ => None
  end.

(** The last colour sampled along a trace. *)
Fixpoint last_sample (es : list event) (before : option rgb) : option rgb :=
  match es with
  | [] => before
  | DoPick env :: es' =>
      last_sample es'
        (match sample_of env with Some c => Some c | None => before end)
  | _ :: es' => last_sample es' before
  end.

(** The history is duplicate-free and within its capacity [m]. *)
Definition history_ok (m : nat) (w : Window) : Prop :=
  Deque.maxlen (history w) = m /\
  NoDup (colours w) /\
  (List.length (colours w) <= m)%nat.

(** Every row of the list widget was written by [refresh_history_list]. *)
Definition rows_ok (w : Window) : Prop :=
  Forall (fun txt => exists c, txt = item_text c) (list_items (ui w)).

(** The selection agrees with the cursor: on a non-empty history the
    selected colour is the one at [history_index]; on an empty one nothing
    is selected. *)
Definition selection_ok (w : Window) : Prop :=
  match colours w with
  | [] => selected_rgb w = None /\ history_index w = 0
  | _ :: _ =>
      0 <= history_index w < Deque.len (history w) /\
      selected_rgb w = nth_error (colours w) (Z.to_nat (history_index w))
  end.

(** [w'] has the history, the cursor, the selection and the last sample
    of [w]. *)
Definition same_selection (w w' : Window) : Prop :=
  history w' = history w /\
  history_index w' = history_index w /\
  current_rgb w' = current_rgb w /\
  selected_rgb w' = selected_rgb w.

(** The index [select_history_index] settles on. *)
Definition clamp (index : Z) (w : Window) : Z :=
  Z.max 0 (Z.min index (Deque.len (history w) - 1)).

(** A colour whose three components are bytes, as the sampler promises. *)
Definition byte_colour (c : rgb) : Prop :=
  let '(r, g, b) := c in uint8 r /\ uint8 g /\ uint8 b.

(** The event keeps the sampler's promise. *)
Definition samples_bytes (e : event) : Prop :=
  match e with
  | DoPick env =>
      match sample_of env with
      | Some c => byte_colour c
      | None => True
      end
  | _ => True
  end.

(** [#RRGGBB] in upper case. *)
Definition hex6 (c : rgb) : string :=
  let '(r, g, b) := c in String "#" (hex2 r ++ hex2 g ++ hex2 b).

(** The [remove_hotkey] calls of [register_hotkeys]: one for each handler
    the window holds, pick first. *)
Definition removals (w : Window) : list ext_call :=
  (match pick_handler w with Some h => [RemoveHotkey h] | None => [] end ++
   match copy_handler w with Some h => [RemoveHotkey h] | None => [] end)%list.

(** The messages of the registrations that failed, pick first. *)
Definition failures (env : registrar) : list string :=
  (match add_pick env with
   | Raise e => [("注册取色热键失败: " ++ e)%string]
   | Ok _ => []
   end ++
   match add_copy env with
   | Raise e => [("注册复制热键失败: " ++ e)%string]
   | Ok _ => []
   end)%list.

(** What [register_hotkeys] queues once both registrations were tried. *)
Definition report (env : registrar) (w : Window) : list ui_call :=
  match failures env with
  | [] =>
      [SetStatus ("热键已注册：取色 " ++ pick_hotkey w ++ " / 复制 "
                  ++ copy_hotkey w)]
  | _ :: _ =>
      [SetStatus (PyStr.join "；" (failures env));
       ShowErrorBox (PyStr.join "；" (failures env))]
  end.

(** The handler a registration leaves behind. *)
Definition bound (answer : result handle) : option handle :=
  match answer with
  | Ok h => Some h
  | Raise _ => None
  end.

(** Picks of the given colours, oldest first. *)
Definition picks (cs : list rgb) : list event :=
  map (fun c => DoPick (sampled c)) cs.

(** A registrar that accepts every call and hands out handle [h]. *)
Definition accepting (h : handle) : registrar :=
  {| remove_pick := Ok tt; remove_copy := Ok tt;
     add_pick := Ok h; add_copy := Ok (S h) |}.

(** [x != c], the test of the list comprehension on line 222. *)
Definition other_than (c : rgb) (x : rgb) : bool := negb (rgb_eqb x c).

(** The colours sampled since the last clear, each once, the most recent
    first, with no bound on their number; [acc] is that list before the
    trace. *)
Fixpoint recent (es : list event) (acc : list rgb) : list rgb :=
  match es with
  | [] => acc
  | DoPick env :: es' =>
      recent es'
        (match sample_of env with
         | Some c => c :: filter (other_than c) acc
         | None => acc
         end)
  | DoClear :: es' => recent es' []
  | _ :: es' => recent es' acc
  end.

(** The five invocations a successful pick queues, in order. *)
Definition pick_queue (x y : Z) (c : rgb) : list ui_call :=
  let '(r, g, b) := c in
  [LabelRgbSetText
     ("RGB: " ++ PyStr.str_int r ++ ", " ++ PyStr.str_int g ++ ", "
      ++ PyStr.str_int b ++ "  (pos: " ++ PyStr.str_int x ++ ","
      ++ PyStr.str_int y ++ ")");
   LabelHexSetText ("HEX: " ++ rgb_to_hex_t c);
   SwatchSetStyleSheet
     ("background-color: " ++ rgb_to_hex_t c ++ "; border: 1px solid #000;");
   RefreshHistoryList;
   SetStatus ("已采样并加入/更新历史: " ++ rgb_to_hex_t c)].

(** ** Proof steps for handlers *)

(** Unfold the monad and the field assignments, leaving the tests of the
    handler in the goal. *)
Ltac run_handler :=
  cbv beta iota zeta delta
    [exec fst snd bind gets modify lift ret try_except invoke extern widget
     invoke_refused thread setCurrentRow
     set_status update_button_labels show_error_box
     set_pick_hotkey set_copy_hotkey set_pick_handler set_copy_handler
     set_history set_history_index set_current_rgb set_selected_rgb set_ui
     set_pending set_calls
     with_swatch with_label_rgb with_label_hex with_status with_btn_pick
     with_btn_copy with_list_items with_list_row
     pick_hotkey copy_hotkey pick_handler copy_handler history history_index
     current_rgb selected_rgb ui pending calls
     swatch label_rgb label_hex status btn_pick btn_copy list_items list_row
     colours].

(** Case analysis on the innermost test the goal is stuck on. *)
Ltac split_test :=
  match goal with
  | |- context [match ?x with _ => _ end] =>
      lazymatch x with
      | context [match _ with _ => _ end] => fail
      | _ => destruct x eqn:?
      end
  end.

(** ** Strings *)

Section Strings.

Lemma append_nil_r (s : string) : s ++ "" = s.
Proof. induction s as [|c s IH]; simpl; [reflexivity | now rewrite IH]. Qed.

Lemma append_assoc (a b c : string) : (a ++ b) ++ c = a ++ (b ++ c).
Proof. induction a as [|x a IH]; simpl; [reflexivity | now rewrite IH]. Qed.

Lemma snoc_append (cur : string) (c : ascii) (s : string) :
  PyStr.snoc cur c ++ s = cur ++ String c s.
Proof. unfold PyStr.snoc. now rewrite append_assoc. Qed.

Lemma all_app (p : ascii -> bool) (a b : string) :
  all p (a ++ b) = all p a && all p b.
Proof.
  induction a as [|x a IH]; simpl; [reflexivity|].
  now rewrite IH, andb_assoc.
Qed.

Lemma all_impl (p q : ascii -> bool) (s : string) :
  (forall c, p c = true -> q c = true) -> all p s = true -> all q s = true.
Proof.
  intros Hpq. induction s as [|c s IH]; simpl; [reflexivity|].
  rewrite !andb_true_iff. intros [Hc Hs]. auto.
Qed.

Lemma all_lstrip (p drop : ascii -> bool) (s : string) :
  all p s = true -> all p (PyStr.lstrip drop s) = true.
Proof.
  induction s as [|c s IH]; simpl; [reflexivity|].
  rewrite andb_true_iff. intros [Hc Hs].
  destruct (drop c); [auto|]. simpl. now rewrite Hc, Hs.
Qed.

Lemma all_rstrip (p drop : ascii -> bool) (s : string) :
  all p s = true -> all p (PyStr.rstrip drop s) = true.
Proof.
  induction s as [|c s IH]; simpl; [reflexivity|].
  rewrite andb_true_iff. intros [Hc Hs].
  destruct (PyStr.is_empty (PyStr.rstrip drop s) && drop c);
    [reflexivity|].
  simpl. rewrite Hc. now apply IH.
Qed.

(** A str without white space is one token of [split()]. *)
Lemma split_ws_from_token (t cur : string) :
  all (fun c => negb (PyStr.is_space c)) t = true ->
  PyStr.split_ws_from cur t =
  if PyStr.is_empty (cur ++ t) then [] else [cur ++ t].
Proof.
  revert cur. induction t as [|c t IH]; intros cur; simpl.
  - intros _. now rewrite append_nil_r.
  - rewrite andb_true_iff, negb_true_iff. intros [Hc Ht].
    rewrite Hc, (IH _ Ht), snoc_append. reflexivity.
Qed.

(** The last token of [split()] is what follows the last space. *)
Lemma split_ws_from_last (p t cur : string) :
  all (fun c => negb (PyStr.is_space c)) t = true ->
  t <> "" ->
  exists l,
    PyStr.split_ws_from cur (p ++ String " " t) = (l ++ [t])%list.
Proof.
  intros Ht Hne. revert cur.
  induction p as [|c p IH]; intros cur.
  - cbn [append PyStr.split_ws_from]. change (PyStr.is_space " ") with true.
    cbv iota. rewrite (split_ws_from_token _ _ Ht). simpl.
    destruct t as [|x t]; [congruence|]. simpl.
    destruct (PyStr.is_empty cur); [now exists [] | now exists [cur]].
  - cbn [append PyStr.split_ws_from].
    destruct (PyStr.is_space c).
    + destruct (IH "") as [l Hl]. rewrite Hl.
      destruct (PyStr.is_empty cur); [now exists l | now exists (cur :: l)].
    + apply IH.
Qed.

Lemma getitem_last {A : Type} (l : list A) (x : A) :
  getitem (l ++ [x]) (-1) = Ok x.
Proof.
  unfold getitem. rewrite length_app. cbn [List.length].
  change (-1 <? 0) with true. cbv iota.
  replace (-1 + Z.of_nat (List.length l + 1))
    with (Z.of_nat (List.length l)) by lia.
  rewrite (proj2 (Z.leb_le _ _)), (proj2 (Z.ltb_lt _ _)) by lia.
  cbn [andb]. rewrite Nat2Z.id, nth_error_app2, Nat.sub_diag by lia. reflexivity.
Qed.

(** A str without the separator is the only part of [split(sep)]. *)
Lemma split_on_from_whole (sep : ascii) (s cur : string) :
  all (fun c => negb (Ascii.eqb c sep)) s = true ->
  PyStr.split_on_from sep cur s = [cur ++ s].
Proof.
  revert cur. induction s as [|c s IH]; intros cur; simpl.
  - intros _. now rewrite append_nil_r.
  - rewrite andb_true_iff, negb_true_iff. intros [Hc Hs].
    rewrite Hc, (IH _ Hs), snoc_append. reflexivity.
Qed.

Lemma plain_uint (d : Decimal.uint) :
  all plain (DecimalString.NilEmpty.string_of_uint d) = true.
Proof. induction d; simpl; auto. Qed.

(** [str(n)] consists of digits and a sign. *)
Lemma plain_str_int (n : Z) : all plain (PyStr.str_int n) = true.
Proof.
  unfold PyStr.str_int, DecimalString.NilZero.string_of_int,
    DecimalString.NilZero.string_of_uint.
  destruct (Z.to_int n) as [d|d]; destruct d; simpl;
    auto using plain_uint.
Qed.

Lemma str_int_nonempty (n : Z) : PyStr.str_int n <> "".
Proof.
  unfold PyStr.str_int, DecimalString.NilZero.string_of_int,
    DecimalString.NilZero.string_of_uint.
  destruct (Z.to_int n) as [d|d]; destruct d; simpl; congruence.
Qed.

(** The row text of a colour, cut at its last space. *)
Lemma item_text_tail (c : rgb) :
  exists p,
    item_text c = p ++ String " " (PyStr.str_int (snd c) ++ ")").
Proof.
  destruct c as [[r g] b]. unfold item_text, PyStr.str_tuple. simpl snd.
  exists (rgb_to_hex_t (r, g, b) ++ "    (" ++ PyStr.str_int r ++ ", "
          ++ PyStr.str_int g ++ ",").
  repeat (rewrite !append_assoc; simpl). reflexivity.
Qed.

(** Line 257-258 on a row written by line 244: the text after the last
    space holds no comma, so the unpacking into three names raises. *)
Lemma item_text_unpack (c : rgb) :
  exists part,
    getitem (PyStr.split (item_text c)) (-1) = Ok part /\
    unpack3 (PyStr.split_on "," (PyStr.strip "()" part)) =
    Raise "not enough values to unpack (expected 3)".
Proof.
  destruct (item_text_tail c) as [p Hp].
  set (t := PyStr.str_int (snd c) ++ ")") in *.
  assert (Hplain : all plain t = true).
  { unfold t. rewrite all_app, plain_str_int. reflexivity. }
  assert (Hne : t <> "").
  { unfold t. pose proof (str_int_nonempty (snd c)) as H.
    destruct (PyStr.str_int (snd c)); [congruence | discriminate]. }
  assert (Hws : all (fun c => negb (PyStr.is_space c)) t = true).
  { apply (all_impl plain); [|exact Hplain].
    intros x. unfold plain. rewrite andb_true_iff. tauto. }
  destruct (split_ws_from_last p t "" Hws Hne) as [l Hl].
  exists t. split.
  - unfold PyStr.split. rewrite Hp, Hl. apply getitem_last.
  - unfold PyStr.split_on, PyStr.strip.
    rewrite split_on_from_whole; [reflexivity|].
    apply all_rstrip, all_lstrip, (all_impl plain); [|exact Hplain].
    intros x. unfold plain. rewrite andb_true_iff. tauto.
Qed.

End Strings.

(** ** The hexadecimal form *)

Lemma format_02X_byte (n : Z) : uint8 n -> PyStr.format_02X n = hex2 n.
Proof.
  intros [Hlo Hhi].
  assert (Hin : In (Z.to_nat n) (seq 0 256)) by (apply in_seq; lia).
  assert (Hall :
    forallb
      (fun k => String.eqb (PyStr.format_02X (Z.of_nat k)) (hex2 (Z.of_nat k)))
      (seq 0 256) = true) by (vm_compute; reflexivity).
  rewrite forallb_forall in Hall. specialize (Hall _ Hin).
  rewrite Z2Nat.id in Hall by lia. now apply String.eqb_eq.
Qed.

Lemma rgb_to_hex_bytes (r g b : Z) :
  uint8 r -> uint8 g -> uint8 b ->
  rgb_to_hex r g b = String "#" (hex2 r ++ hex2 g ++ hex2 b).
Proof.
  intros Hr Hg Hb. unfold rgb_to_hex.
  now rewrite !format_02X_byte by assumption.
Qed.

(** ** The deque *)

Section DequeFacts.

Lemma rgb_eqb_eq (a b : rgb) : rgb_eqb a b = true <-> a = b.
Proof.
  destruct a as [[r1 g1] b1], b as [[r2 g2] b2]. unfold rgb_eqb.
  rewrite !andb_true_iff, !Z.eqb_eq. split.
  - intros [[-> ->] ->]. reflexivity.
  - intros H. injection H as -> -> ->. auto.
Qed.

Lemma rgb_eqb_refl (a : rgb) : rgb_eqb a a = true.
Proof. now apply rgb_eqb_eq. Qed.

Lemma rgb_eqb_neq (a b : rgb) : rgb_eqb a b = false <-> a <> b.
Proof.
  rewrite <- rgb_eqb_eq. destruct (rgb_eqb a b); split; congruence.
Qed.

Lemma contains_In (c : rgb) (d : Deque.t) :
  Deque.contains c d = true <-> In c (Deque.items d).
Proof.
  unfold Deque.contains. rewrite existsb_exists. split.
  - intros [x [Hx Heq]]. apply rgb_eqb_eq in Heq. now subst.
  - intros H. exists c. auto using rgb_eqb_refl.
Qed.

Lemma remove_first_absent (c : rgb) (l : list rgb) :
  ~ In c l -> Deque.remove_first c l = None.
Proof.
  induction l as [|y l IH]; simpl; [reflexivity|].
  intros H. destruct (rgb_eqb y c) eqn:E.
  - apply rgb_eqb_eq in E. tauto.
  - rewrite IH; tauto.
Qed.

(** [remove] takes out the first occurrence and keeps the order of the
    other elements. *)
Lemma remove_first_present (c : rgb) (l : list rgb) :
  In c l ->
  exists l1 l2,
    l = (l1 ++ c :: l2)%list /\ ~ In c l1 /\
    Deque.remove_first c l = Some (l1 ++ l2)%list.
Proof.
  induction l as [|y l IH]; simpl; [tauto|].
  intros H. destruct (rgb_eqb y c) eqn:E.
  - apply rgb_eqb_eq in E. subst y. now exists [], l.
  - apply rgb_eqb_neq in E. destruct H as [H|H]; [congruence|].
    destruct (IH H) as (l1 & l2 & -> & Hn & ->).
    exists (y :: l1), l2. simpl. intuition congruence.
Qed.

Lemma remove_first_at (c : rgb) (l : list rgb) (i : nat) :
  NoDup l -> nth_error l i = Some c ->
  Deque.remove_first c l = Some (firstn i l ++ skipn (S i) l)%list.
Proof.
  intros Hnd. revert i. induction Hnd as [|y l Hy Hnd IH]; intros i.
  - destruct i; discriminate.
  - destruct i as [|i]; simpl.
    + intros [= ->]. now rewrite rgb_eqb_refl.
    + intros Hi. destruct (rgb_eqb y c) eqn:E.
      * apply rgb_eqb_eq in E. subst y.
        apply nth_error_In in Hi. tauto.
      * now rewrite (IH _ Hi).
Qed.

Lemma In_removelast {A : Type} (x : A) (l : list A) :
  In x (removelast l) -> In x l.
Proof.
  induction l as [|a l IH]; simpl; [tauto|].
  destruct l as [|b l]; simpl in *; tauto.
Qed.

Lemma NoDup_removelast {A : Type} (l : list A) :
  NoDup l -> NoDup (removelast l).
Proof.
  induction 1 as [|a l Ha Hl IH]; simpl; [constructor|].
  destruct l as [|b l]; [constructor|].
  constructor; [|exact IH].
  intros Hin. apply In_removelast in Hin. tauto.
Qed.

Lemma length_removelast {A : Type} (l : list A) :
  List.length (removelast l) = pred (List.length l).
Proof.
  induction l as [|a l IH]; simpl; [reflexivity|].
  destruct l as [|b l]; [reflexivity|]. simpl in *. now rewrite IH.
Qed.

Lemma maxlen_moved_to_front (c : rgb) (d : Deque.t) :
  Deque.maxlen (moved_to_front c d) = Deque.maxlen d.
Proof.
  unfold moved_to_front.
  destruct (Deque.remove_first c (Deque.items d)); reflexivity.
Qed.

(** The colours of the deque once [c] is taken out, whether it was there
    or not. *)
Lemma moved_to_front_items (c : rgb) (d : Deque.t) :
  exists rest,
    (NoDup (Deque.items d) -> NoDup (c :: rest)) /\
    (forall x, In x rest -> In x (Deque.items d)) /\
    (List.length rest <= List.length (Deque.items d))%nat /\
    Deque.items (moved_to_front c d) =
    (if (Deque.maxlen d <? S (List.length rest))%nat
     then removelast (c :: rest) else c :: rest).
Proof.
  unfold moved_to_front. destruct (Deque.contains c d) eqn:E.
  - apply contains_In in E.
    destruct (remove_first_present c _ E) as (l1 & l2 & Hl & _ & ->).
    exists (l1 ++ l2)%list. rewrite Hl. split; [|split; [|split]].
    + intros Hnd. apply NoDup_remove in Hnd. now constructor.
    + intros x. rewrite !in_app_iff. simpl. tauto.
    + rewrite !length_app. simpl. lia.
    + reflexivity.
  - assert (Hout : ~ In c (Deque.items d)).
    { intros H. apply contains_In in H. congruence. }
    rewrite (remove_first_absent c _ Hout).
    exists (Deque.items d). split; [|split; [|split]]; auto.
    intros Hnd. now constructor.
Qed.

Lemma NoDup_moved_to_front (c : rgb) (d : Deque.t) :
  NoDup (Deque.items d) -> NoDup (Deque.items (moved_to_front c d)).
Proof.
  intros Hnd.
  destruct (moved_to_front_items c d) as (rest & Hnd' & _ & _ & ->).
  destruct (Deque.maxlen d <? S (List.length rest))%nat;
    auto using NoDup_removelast.
Qed.

Lemma length_moved_to_front (c : rgb) (d : Deque.t) :
  (List.length (Deque.items d) <= Deque.maxlen d)%nat ->
  (List.length (Deque.items (moved_to_front c d)) <= Deque.maxlen d)%nat.
Proof.
  intros Hlen.
  destruct (moved_to_front_items c d) as (rest & _ & _ & Hle & ->).
  destruct (Deque.maxlen d <? S (List.length rest))%nat eqn:E.
  - rewrite length_removelast. simpl. lia.
  - apply Nat.ltb_ge in E. simpl. lia.
Qed.

(** With room for at least one colour, the sampled colour ends at the
    left end. *)
Lemma head_moved_to_front (c : rgb) (d : Deque.t) :
  (0 < Deque.maxlen d)%nat ->
  (List.length (Deque.items d) <= Deque.maxlen d)%nat ->
  exists rest, Deque.items (moved_to_front c d) = c :: rest.
Proof.
  intros Hpos Hlen.
  destruct (moved_to_front_items c d) as (rest & _ & _ & Hle & ->).
  destruct (Deque.maxlen d <? S (List.length rest))%nat eqn:E.
  - apply Nat.ltb_lt in E. destruct rest as [|y rest]; simpl in *.
    + lia.
    + now exists (removelast (y :: rest)).
  - now exists rest.
Qed.

Lemma In_moved_to_front (c x : rgb) (d : Deque.t) :
  In x (Deque.items (moved_to_front c d)) -> x = c \/ In x (Deque.items d).
Proof.
  destruct (moved_to_front_items c d) as (rest & _ & Hin & _ & ->).
  intros H.
  assert (H' : In x (c :: rest)).
  { destruct (Deque.maxlen d <? S (List.length rest))%nat;
      [now apply In_removelast | exact H]. }
  destruct H' as [<-|H']; auto.
Qed.

End DequeFacts.

(** ** One handler at a time *)

Section Handlers.

(** Lines 210-219 never raise: [remove] is called on a colour that is in
    the deque. The rebuild of lines 222-226 is therefore never run. *)
Lemma history_add_run (c : rgb) (w : Window) :
  history_add c w = (Ok tt, set_history (moved_to_front c (history w)) w).
Proof.
  destruct w as [ph ch hp hc d i cur sel u q cs].
  unfold history_add, moved_to_front, Deque.remove. run_handler.
  destruct (Deque.contains c d) eqn:E.
  - apply contains_In in E.
    destruct (remove_first_present c _ E) as (l1 & l2 & _ & _ & ->).
    reflexivity.
  - assert (Hout : ~ In c (Deque.items d)).
    { intros H. apply contains_In in H. congruence. }
    now rewrite (remove_first_absent c _ Hout).
Qed.

(** A pick that samples colour [c]. *)
Lemma pick_sampled (env : sampler) (c : rgb) (w : Window) :
  sample_of env = Some c ->
  let w' := exec (pick_under_cursor env) w in
  history w' = moved_to_front c (history w) /\
  history_index w' = 0 /\
  current_rgb w' = Some c /\
  selected_rgb w' =
    match Deque.items (moved_to_front c (history w)) with
    | first :: _ => Some first
    | [] => Some c
    end /\
  ui w' = ui w /\
  calls w' = calls w.
Proof.
  destruct env as [[[x y]|e] [[[r g] b]|e']]; try discriminate.
  intros [= <-]. destruct w as [ph ch hp hc d i cur sel u q cs].
  unfold pick_under_cursor, position, pixel.
  run_handler. rewrite !history_add_run. run_handler.
  destruct (Deque.items (moved_to_front (r, g, b) d)); repeat split.
Qed.

(** A pick whose sampler raises: the window is left as it was, but for
    one queued status message. *)
Lemma pick_failed (env : sampler) (w : Window) :
  sample_of env = None ->
  exists e,
    (position env = Raise e \/
     (exists xy, position env = Ok xy) /\ pixel env = Raise e) /\
    exec (pick_under_cursor env) w =
    set_pending (pending w ++ [SetStatus ("取色失败: " ++ e)])%list w.
Proof.
  destruct env as [[[x y]|e] [[[r g] b]|e']]; try discriminate; intros _.
  - exists e'. split; [right; split; [now exists (x, y) | reflexivity]|].
    reflexivity.
  - exists e. split; [now left|]. reflexivity.
  - exists e. split; [now left|]. reflexivity.
Qed.

Lemma copy_same (clip : result unit) (w : Window) :
  same_selection w (exec (copy_selected_color clip) w) /\
  ui (exec (copy_selected_color clip) w) = ui w.
Proof.
  destruct w as [ph ch hp hc d i cur sel u q cs].
  unfold same_selection, copy_selected_color. run_handler.
  repeat (split_test; run_handler); repeat split.
Qed.

Lemma register_same (env : registrar) (w : Window) :
  same_selection w (exec (register_hotkeys env) w) /\
  ui (exec (register_hotkeys env) w) = ui w.
Proof.
  destruct w as [ph ch hp hc d i cur sel u q cs].
  unfold same_selection, register_hotkeys. run_handler.
  repeat (split_test; run_handler); repeat split.
Qed.

Lemma settings_same (dlg : dialog) (env : registrar) (w : Window) :
  same_selection w (exec (open_settings dlg env) w) /\
  list_items (ui (exec (open_settings dlg env) w)) = list_items (ui w).
Proof.
  destruct w as [ph ch hp hc d i cur sel u q cs].
  unfold same_selection, open_settings, register_hotkeys. run_handler.
  repeat (split_test; run_handler); repeat split.
Qed.

Lemma deliver_same (w : Window) :
  same_selection w (exec deliver w) /\
  (list_items (ui (exec deliver w)) = list_items (ui w) \/
   list_items (ui (exec deliver w)) = map item_text (colours w)).
Proof.
  destruct w as [ph ch hp hc d i cur sel u q cs].
  unfold same_selection, deliver, dispatch, refresh_history_list.
  run_handler.
  repeat (split_test; run_handler); repeat split; auto.
Qed.

(** A click on a row written by [refresh_history_list]: the parse of
    lines 257-258 raises and only the status line changes. *)
Lemma on_history_clicked_row (c : rgb) (w : Window) :
  exec (on_history_clicked (item_text c)) w =
  set_ui (with_status "选择历史项出错" (ui w)) w.
Proof.
  destruct (item_text_unpack c) as (part & Hpart & Hun).
  unfold on_history_clicked. run_handler. rewrite Hpart.
  run_handler. rewrite Hun. reflexivity.
Qed.

(** Whatever the text of the row, a click leaves the rows, the history
    and the last sample alone. *)
Lemma click_rows (row : nat) (w : Window) :
  list_items (ui (exec (click row) w)) = list_items (ui w) /\
  history (exec (click row) w) = history w /\
  current_rgb (exec (click row) w) = current_rgb w.
Proof.
  destruct w as [ph ch hp hc d i cur sel u q cs].
  unfold click, on_history_clicked. run_handler.
  repeat (split_test; run_handler); repeat split.
Qed.

Lemma click_same (row : nat) (w : Window) :
  rows_ok w -> same_selection w (exec (click row) w).
Proof.
  intros Hrows. unfold click. run_handler.
  destruct (nth_error _ row) as [txt|] eqn:E.
  - apply nth_error_In in E.
    destruct (proj1 (Forall_forall _ _) Hrows _ E) as [c ->].
    change (same_selection w
              (exec (on_history_clicked (item_text c))
                 (set_ui (with_list_row (Z.of_nat row) (ui w)) w))).
    rewrite on_history_clicked_row.
    destruct w as [ph ch hp hc d i cur sel u q cs]. repeat split.
  - repeat split.
Qed.

Lemma clear_fields (w : Window) :
  let w' := exec clear_history w in
  history w' = Deque.clear (history w) /\
  list_items (ui w') = [] /\
  history_index w' = 0 /\
  selected_rgb w' = None /\
  current_rgb w' = current_rgb w /\
  calls w' = calls w /\
  pending w' = pending w.
Proof.
  destruct w as [ph ch hp hc d i cur sel u q cs]. repeat split.
Qed.

Lemma getitem_in_range {A : Type} (l : list A) (i : Z) :
  0 <= i < Z.of_nat (List.length l) ->
  exists a, nth_error l (Z.to_nat i) = Some a /\ getitem l i = Ok a.
Proof.
  intros Hi. unfold getitem.
  rewrite (proj2 (Z.ltb_ge _ _)) by lia.
  rewrite (proj2 (Z.leb_le _ _)), (proj2 (Z.ltb_lt _ _)) by lia.
  cbn [andb].
  destruct (nth_error l (Z.to_nat i)) as [a|] eqn:E; [now exists a|].
  apply nth_error_None in E. lia.
Qed.

(** [select_history_index] on a non-empty history: the cursor is the
    clamped index and the selection is the colour there. *)
Lemma select_history_index_fields (index : Z) (w : Window) :
  colours w <> [] ->
  let w' := exec (select_history_index index) w in
  history w' = history w /\
  current_rgb w' = current_rgb w /\
  list_items (ui w') = list_items (ui w) /\
  history_index w' = clamp index w /\
  selected_rgb w' = nth_error (colours w) (Z.to_nat (clamp index w)) /\
  0 <= clamp index w < Deque.len (history w).
Proof.
  intros Hne.
  assert (Hr : 0 <= clamp index w < Z.of_nat (List.length (colours w))).
  { unfold clamp, Deque.len, colours in *.
    destruct (Deque.items (history w)); [congruence|].
    cbn [List.length]. lia. }
  destruct (getitem_in_range _ _ Hr) as (a & Hnth & Hget).
  unfold clamp, colours in *.
  destruct w as [ph ch hp hc d i cur sel u q cs].
  unfold select_history_index. run_handler.
  cbv beta iota zeta delta [history] in *.
  destruct (Deque.items d) as [|c0 l] eqn:El; [congruence|].
  rewrite Hget. run_handler. rewrite Hnth.
  unfold Deque.len in *. rewrite El in *. repeat split; lia.
Qed.

Lemma select_history_index_empty (index : Z) (w : Window) :
  colours w = [] -> exec (select_history_index index) w = w.
Proof.
  destruct w as [ph ch hp hc d i cur sel u q cs].
  unfold select_history_index, colours. run_handler.
  intros ->. reflexivity.
Qed.

Lemma key_down_run (w : Window) :
  colours w <> [] ->
  exec (keyPressEvent Key_Down) w =
  exec (select_history_index
          ((history_index w + 1) mod Deque.len (history w))) w.
Proof.
  destruct w as [ph ch hp hc d i cur sel u q cs].
  unfold keyPressEvent, colours. run_handler.
  destruct (Deque.items d); [congruence | reflexivity].
Qed.

Lemma key_up_run (w : Window) :
  colours w <> [] ->
  exec (keyPressEvent Key_Up) w =
  exec (select_history_index
          ((history_index w - 1) mod Deque.len (history w))) w.
Proof.
  destruct w as [ph ch hp hc d i cur sel u q cs].
  unfold keyPressEvent, colours. run_handler.
  destruct (Deque.items d); [congruence | reflexivity].
Qed.

Lemma key_other_run (w : Window) : exec (keyPressEvent Key_Other) w = w.
Proof.
  destruct w as [ph ch hp hc d i cur sel u q cs].
  unfold keyPressEvent. run_handler. destruct (Deque.items d); reflexivity.
Qed.

Lemma key_empty_run (k : key) (w : Window) :
  colours w = [] -> exec (keyPressEvent k) w = w.
Proof.
  destruct w as [ph ch hp hc d i cur sel u q cs].
  unfold keyPressEvent, colours. run_handler. intros ->. reflexivity.
Qed.

(** The index an arrow key asks [select_history_index] for. *)
Lemma key_run (k : key) (w : Window) :
  exec (keyPressEvent k) w = w \/
  colours w <> [] /\
  exists index, exec (keyPressEvent k) w = exec (select_history_index index) w.
Proof.
  destruct (colours w) as [|c l] eqn:E.
  - left. now apply key_empty_run.
  - rewrite <- E.
    assert (Hne : colours w <> []) by (rewrite E; discriminate).
    destruct k.
    + right. split; [exact Hne|]. eexists. now apply key_up_run.
    + right. split; [exact Hne|]. eexists. now apply key_down_run.
    + left. apply key_other_run.
Qed.

Lemma clamp_in_range (index : Z) (w : Window) :
  0 <= index < Deque.len (history w) -> clamp index w = index.
Proof. unfold clamp. lia. Qed.

End Handlers.

(** ** Invariants of the event loop *)

Section Invariants.

Lemma same_selection_ok (w w' : Window) :
  same_selection w w' -> selection_ok w -> selection_ok w'.
Proof.
  unfold same_selection, selection_ok, colours.
  intros (-> & -> & _ & ->). auto.
Qed.

Lemma step_history (w : Window) (e : event) :
  history (step w e) = history w \/
  history (step w e) = Deque.clear (history w) \/
  exists c, history (step w e) = moved_to_front c (history w).
Proof.
  unfold step. destruct e as [env|clip| |k|row|dlg env|env| ];
    cbn [handler].
  - destruct (sample_of env) as [c|] eqn:E.
    + right. right. exists c. now apply pick_sampled.
    + destruct (pick_failed env w E) as (e & _ & ->). now left.
  - left. apply copy_same.
  - right. left. apply clear_fields.
  - left. destruct (key_run k w) as [->|(Hne & index & ->)];
      [reflexivity|].
    now apply select_history_index_fields.
  - left. apply click_rows.
  - left. apply settings_same.
  - left. apply register_same.
  - left. apply deliver_same.
Qed.

Lemma step_history_ok (m : nat) (w : Window) (e : event) :
  history_ok m w -> history_ok m (step w e).
Proof.
  unfold history_ok, colours. intros (Hm & Hnd & Hlen).
  destruct (step_history w e) as [->|[->|[c ->]]].
  - auto.
  - simpl. repeat split; [exact Hm | constructor | lia].
  - rewrite maxlen_moved_to_front. repeat split.
    + exact Hm.
    + now apply NoDup_moved_to_front.
    + rewrite <- Hm. apply length_moved_to_front. lia.
Qed.

Lemma step_rows_ok (w : Window) (e : event) :
  rows_ok w -> rows_ok (step w e).
Proof.
  unfold rows_ok, step. intros Hrows.
  destruct e as [env|clip| |k|row|dlg env|env| ]; cbn [handler].
  - destruct (sample_of env) as [c|] eqn:E.
    + destruct (pick_sampled env c w E) as (_ & _ & _ & _ & -> & _).
      exact Hrows.
    + destruct (pick_failed env w E) as (e & _ & ->). exact Hrows.
  - now rewrite (proj2 (copy_same clip w)).
  - destruct (clear_fields w) as (_ & -> & _). constructor.
  - destruct (key_run k w) as [->|(Hne & index & ->)]; [exact Hrows|].
    destruct (select_history_index_fields index w Hne)
      as (_ & _ & -> & _).
    exact Hrows.
  - now rewrite (proj1 (click_rows row w)).
  - now rewrite (proj2 (settings_same dlg env w)).
  - now rewrite (proj2 (register_same env w)).
  - destruct (deliver_same w) as (_ & [-> | ->]); [exact Hrows|].
    apply Forall_forall. intros txt Hin. apply in_map_iff in Hin.
    destruct Hin as (c & <- & _). now exists c.
Qed.

Lemma step_selection_ok (m : nat) (w : Window) (e : event) :
  (0 < m)%nat -> history_ok m w -> rows_ok w -> selection_ok w ->
  selection_ok (step w e).
Proof.
  intros Hpos (Hm & Hnd & Hlen) Hrows Hsel. unfold step.
  destruct e as [env|clip| |k|row|dlg env|env| ]; cbn [handler].
  - destruct (sample_of env) as [c|] eqn:E.
    + destruct (pick_sampled env c w E) as (Hh & Hi & _ & Hs & _).
      destruct (head_moved_to_front c (history w)) as (rest & Hrest);
        [lia | unfold colours in Hlen; lia |].
      unfold selection_ok, colours, Deque.len.
      rewrite Hh, Hi, Hs, Hrest. cbn [List.length nth_error Z.to_nat].
      split; [lia | reflexivity].
    + destruct (pick_failed env w E) as (e & _ & ->).
      revert Hsel. apply same_selection_ok. repeat split.
  - revert Hsel. apply same_selection_ok, copy_same.
  - destruct (clear_fields w) as (Hh & _ & Hi & Hs & _).
    unfold selection_ok, colours. rewrite Hh. simpl. auto.
  - destruct (key_run k w) as [->|(Hne & index & ->)]; [exact Hsel|].
    destruct (select_history_index_fields index w Hne)
      as (Hh & _ & _ & Hi & Hs & Hr).
    unfold selection_ok, colours in *. rewrite Hh, Hi, Hs.
    destruct (Deque.items (history w)); [congruence | auto].
  - revert Hsel. now apply same_selection_ok, click_same.
  - revert Hsel. apply same_selection_ok, settings_same.
  - revert Hsel. apply same_selection_ok, register_same.
  - revert Hsel. apply same_selection_ok, deliver_same.
Qed.

Lemma init_window_ok (m : nat) :
  history_ok m (init_window m) /\ rows_ok (init_window m) /\
  selection_ok (init_window m).
Proof.
  repeat split; simpl; try constructor. lia.
Qed.

(** What holds of every window the event loop can reach. *)
Lemma run_ok (m : nat) (es : list event) (w : Window) :
  history_ok m w -> rows_ok w -> ((0 < m)%nat -> selection_ok w) ->
  history_ok m (run w es) /\ rows_ok (run w es) /\
  ((0 < m)%nat -> selection_ok (run w es)).
Proof.
  revert w. induction es as [|e es IH]; intros w Hh Hr Hs; [auto|].
  simpl. apply IH.
  - now apply step_history_ok.
  - now apply step_rows_ok.
  - intros Hpos. apply (step_selection_ok m); auto.
Qed.

Lemma reachable_ok (m : nat) (es : list event) :
  let w := run (init_window m) es in
  history_ok m w /\ rows_ok w /\ ((0 < m)%nat -> selection_ok w).
Proof.
  destruct (init_window_ok m) as (Hh & Hr & Hs). now apply run_ok.
Qed.

Lemma run_app (w : Window) (es es' : list event) :
  run w (es ++ es') = run (run w es) es'.
Proof. apply fold_left_app. Qed.

End Invariants.

(** ** The history *)

Section History.

Lemma filter_absent (c : rgb) (l : list rgb) :
  ~ In c l -> filter (fun x => negb (rgb_eqb x c)) l = l.
Proof.
  induction l as [|y l IH]; simpl; [reflexivity|].
  intros H. destruct (rgb_eqb y c) eqn:E.
  - apply rgb_eqb_eq in E. tauto.
  - simpl. rewrite IH; tauto.
Qed.

(** The rebuild of lines 222-226, were it ever run, would leave the deque
    lines 210-219 leave, on a duplicate-free history within its capacity. *)
Lemma history_rebuild_agrees (m : nat) (c : rgb) (w : Window) :
  history_ok m w ->
  history_rebuild c w = history_add c w.
Proof.
  intros (Hm & Hnd & Hlen). rewrite history_add_run.
  unfold history_rebuild, colours in *. run_handler.
  destruct w as [ph ch hp hc d i cur sel u q cs].
  cbn [history] in *. do 2 f_equal. unfold set_history. f_equal.
  unfold moved_to_front, Deque.of_list, Deque.appendleft.
  assert (Hrest : exists rest,
             filter (fun x => negb (rgb_eqb x c)) (Deque.items d) = rest /\
             (List.length rest <= List.length (Deque.items d))%nat /\
             match Deque.remove_first c (Deque.items d) with
             | Some l => Deque.mk l (Deque.maxlen d)
             | None => d
             end = Deque.mk rest (Deque.maxlen d)).
  { destruct (Deque.contains c d) eqn:E.
    - apply contains_In in E.
      destruct (remove_first_present c _ E) as (l1 & l2 & Hl & Hn & ->).
      rewrite Hl in *. apply NoDup_remove in Hnd. destruct Hnd as (_ & Hout).
      exists (l1 ++ l2)%list. split; [|split].
      + rewrite filter_app. simpl. rewrite rgb_eqb_refl. simpl.
        rewrite <- filter_app. now apply filter_absent.
      + rewrite !length_app. simpl. lia.
      + reflexivity.
    - assert (Hout : ~ In c (Deque.items d)).
      { intros H. apply contains_In in H. congruence. }
      rewrite (remove_first_absent c _ Hout).
      exists (Deque.items d). split; [now apply filter_absent|].
      split; [lia | now destruct d]. }
  destruct Hrest as (rest & -> & Hle & ->). cbn [Deque.items Deque.maxlen].
  destruct (Deque.maxlen d <? List.length (c :: rest))%nat eqn:E.
  - apply Nat.ltb_lt in E. cbn [List.length] in E.
    assert (Hmax : Deque.maxlen d = List.length rest) by lia.
    rewrite removelast_firstn_len. cbn [List.length pred]. rewrite Hmax.
    rewrite length_firstn. cbn [List.length].
    replace (Nat.min (List.length rest) (S (List.length rest))
             - List.length rest)%nat with O by lia.
    reflexivity.
  - apply Nat.ltb_ge in E. rewrite firstn_all2 by exact E.
    replace (List.length (c :: rest) - Deque.maxlen d)%nat with O by lia.
    reflexivity.
Qed.

(** C4. Uniqueness: whatever happens to a window that starts with an
    empty history (picks that sample, picks whose sampler raises, and
    every other event in between), no colour is in the history twice; two
    colours are the same when their three components are. *)
Theorem history_unique (m : nat) (es : list event) :
  NoDup (colours (run (init_window m) es)) /\
  (forall a b : rgb, rgb_eqb a b = true <-> a = b).
Proof.
  split; [apply (reachable_ok m es) | apply rgb_eqb_eq].
Qed.

(** C5. Bounded size: the capacity of the history is the value the deque
    was created with (10 by default), no event changes it, and after
    every sequence of events the history holds at most that many
    colours. *)
Theorem history_bounded (m : nat) (es : list event) :
  Deque.maxlen (history (run (init_window m) es)) = m /\
  (List.length (colours (run (init_window m) es)) <= m)%nat /\
  Deque.maxlen (history (init_window MAX_HISTORY)) = 10%nat.
Proof.
  destruct (reachable_ok m es) as ((Hm & _ & Hlen) & _). auto.
Qed.

Lemma colours_pick (env : sampler) (c : rgb) (w : Window) :
  sample_of env = Some c ->
  colours (step w (DoPick env)) =
  Deque.items (moved_to_front c (history w)).
Proof.
  intros E. unfold colours, step. cbn [handler].
  now rewrite (proj1 (pick_sampled env c w E)).
Qed.

Lemma sample_of_sampled (c : rgb) : sample_of (sampled c) = Some c.
Proof. reflexivity. Qed.

(** A colour that is not in a history with room left enters on the
    left. *)
Lemma pick_fresh (m : nat) (c : rgb) (l : list rgb) (w : Window) :
  history w = Deque.mk l m -> ~ In c l -> (List.length l < m)%nat ->
  history (step w (DoPick (sampled c))) = Deque.mk (c :: l) m.
Proof.
  intros Hw Hc Hlen. unfold step. cbn [handler].
  rewrite (proj1 (pick_sampled _ c w (sample_of_sampled c))), Hw.
  unfold moved_to_front. cbn [Deque.items Deque.maxlen].
  rewrite (remove_first_absent c l Hc).
  unfold Deque.appendleft. cbn [Deque.items Deque.maxlen List.length].
  now rewrite (proj2 (Nat.ltb_ge _ _)) by lia.
Qed.

(** C6. Capacity eviction: a pick that samples a colour which is not in
    a full history (of positive capacity) puts it at index 0 and drops
    exactly the last colour, the others keeping their order one place
    further down; with capacity 3, picking four distinct colours A, B, C,
    D in turn leaves [D; C; B]. *)
Theorem capacity_eviction :
  (forall (w : Window) (env : sampler) (c : rgb),
      sample_of env = Some c ->
      (0 < Deque.maxlen (history w))%nat ->
      List.length (colours w) = Deque.maxlen (history w) ->
      ~ In c (colours w) ->
      colours (step w (DoPick env)) = c :: removelast (colours w) /\
      (forall i x, nth_error (colours w) i = Some x ->
                   (S i < List.length (colours w))%nat ->
                   nth_error (colours (step w (DoPick env))) (S i) = Some x)) /\
  (forall A B C D : rgb,
      NoDup [A; B; C; D] ->
      colours (run (init_window 3) (picks [A; B; C; D])) = [D; C; B]).
Proof.
  split.
  - intros w env c E Hpos Hfull Hout.
    assert (Hc : colours (step w (DoPick env)) = c :: removelast (colours w)).
    { rewrite (colours_pick env c w E). unfold moved_to_front, colours in *.
      rewrite (remove_first_absent c _ Hout).
      unfold Deque.appendleft. cbn [Deque.items List.length].
      rewrite (proj2 (Nat.ltb_lt _ _)) by lia.
      destruct (Deque.items (history w)) as [|y l] eqn:El;
        [simpl in Hfull; lia | reflexivity]. }
    split; [exact Hc|].
    intros i x Hi Hlt. rewrite Hc. cbn [nth_error].
    rewrite removelast_firstn_len, nth_error_firstn.
    rewrite (proj2 (Nat.ltb_lt _ _)) by lia. exact Hi.
  - intros A B C D Hnd.
    inversion Hnd as [|? ? HA Hnd1]; subst.
    inversion Hnd1 as [|? ? HB Hnd2]; subst.
    inversion Hnd2 as [|? ? HC' _]; subst.
    assert (HAB : ~ In B [A]) by (simpl in *; intuition congruence).
    assert (HC : ~ In C [B; A]) by (simpl in *; intuition congruence).
    assert (HD : ~ In D [C; B; A]) by (simpl in *; intuition congruence).
    unfold picks. cbn [map run fold_left].
    assert (H1 : history (step (init_window 3) (DoPick (sampled A)))
                 = Deque.mk [A] 3)
      by (apply pick_fresh; [reflexivity | simpl; tauto | simpl; lia]).
    pose proof (pick_fresh 3 B [A] _ H1 HAB ltac:(simpl; lia)) as H2.
    pose proof (pick_fresh 3 C [B; A] _ H2 HC ltac:(simpl; lia)) as H3.
    rewrite (colours_pick _ D _ (sample_of_sampled D)), H3.
    unfold moved_to_front. cbn [Deque.items Deque.maxlen].
    now rewrite (remove_first_absent D _ HD).
Qed.

(** Both parts at concrete colours: capacity 2 and capacity 3. *)
Lemma capacity_eviction_witness :
  colours (step (run (init_window 2) (picks [(1, 1, 1); (2, 2, 2)]))
             (DoPick (sampled (3, 3, 3))))
  = [(3, 3, 3); (2, 2, 2)] /\
  colours (run (init_window 3)
             (picks [(255, 0, 0); (0, 255, 0); (0, 0, 255); (9, 9, 9)]))
  = [(9, 9, 9); (0, 0, 255); (0, 255, 0)].
Proof.
  split.
  - apply (proj1 capacity_eviction
             (run (init_window 2) (picks [(1, 1, 1); (2, 2, 2)]))
             (sampled (3, 3, 3)) (3, 3, 3)).
    + reflexivity.
    + simpl. lia.
    + reflexivity.
    + simpl. intros [H|[H|[]]]; discriminate H.
  - apply (proj2 capacity_eviction).
    repeat constructor; simpl; intuition discriminate.
Defined.

(** C7. Move to front: a pick that samples a colour already at index [i]
    of the history of a running window takes it out of place [i] and
    puts it at index 0; the other colours keep their order, none is
    dropped, and the cursor is 0 with that colour selected. With capacity
    3 and history [C; B; A], picking B gives [B; C; A] and cursor 0. *)
Theorem move_to_front :
  (forall (m : nat) (es : list event) (env : sampler) (c : rgb) (i : nat),
      let w := run (init_window m) es in
      let w' := step w (DoPick env) in
      sample_of env = Some c ->
      nth_error (colours w) i = Some c ->
      colours w' = (c :: firstn i (colours w) ++ skipn (S i) (colours w))%list /\
      List.length (colours w') = List.length (colours w) /\
      (forall x, In x (colours w') <-> In x (colours w)) /\
      history_index w' = 0 /\
      selected_rgb w' = Some c) /\
  (forall A B C : rgb,
      NoDup [A; B; C] ->
      let w := run (init_window 3) (picks [A; B; C]) in
      colours w = [C; B; A] /\
      colours (step w (DoPick (sampled B))) = [B; C; A] /\
      history_index (step w (DoPick (sampled B))) = 0).
Proof.
  assert (General :
    forall (m : nat) (es : list event) (env : sampler) (c : rgb) (i : nat),
      let w := run (init_window m) es in
      let w' := step w (DoPick env) in
      sample_of env = Some c ->
      nth_error (colours w) i = Some c ->
      colours w' = (c :: firstn i (colours w) ++ skipn (S i) (colours w))%list /\
      List.length (colours w') = List.length (colours w) /\
      (forall x, In x (colours w') <-> In x (colours w)) /\
      history_index w' = 0 /\
      selected_rgb w' = Some c).
  { intros m es env c i w w' E Hi.
    destruct (reachable_ok m es) as ((Hm & Hnd & Hlen) & _).
    fold w in Hm, Hnd, Hlen.
    pose proof (firstn_skipn_middle _ _ Hi) as Hmid.
    assert (Hsz : List.length (firstn i (colours w) ++ skipn (S i) (colours w))
                  = pred (List.length (colours w))).
    { rewrite <- Hmid at 3. rewrite !length_app. simpl. lia. }
    assert (Hpos : (0 < List.length (colours w))%nat).
    { rewrite <- Hmid, length_app. simpl. lia. }
    assert (Hc : colours w' =
                 (c :: firstn i (colours w) ++ skipn (S i) (colours w))%list).
    { unfold w'. rewrite (colours_pick env c w E).
      unfold moved_to_front. fold (colours w).
      rewrite (remove_first_at c _ i Hnd Hi).
      unfold Deque.appendleft. cbn [Deque.items Deque.maxlen List.length].
      rewrite Hsz, (proj2 (Nat.ltb_ge _ _)) by lia. reflexivity. }
    split; [exact Hc|]. split; [|split; [|split]].
    - rewrite Hc. cbn [List.length]. rewrite Hsz. lia.
    - intros x. rewrite Hc. rewrite <- Hmid at 3.
      simpl. rewrite !in_app_iff. simpl. tauto.
    - apply (pick_sampled env c w E).
    - destruct (pick_sampled env c w E) as (_ & _ & _ & Hs & _).
      unfold w' in *. unfold step at 1. cbn [handler].
      rewrite Hs, <- (colours_pick env c w E), Hc. reflexivity. }
  split; [exact General|].
  intros A B C Hnd w.
  inversion Hnd as [|? ? HA Hnd1]; subst.
  inversion Hnd1 as [|? ? HB _]; subst.
  assert (HAB : ~ In B [A]) by (simpl in *; intuition congruence).
  assert (HC : ~ In C [B; A]) by (simpl in *; intuition congruence).
  assert (H1 : history (step (init_window 3) (DoPick (sampled A)))
               = Deque.mk [A] 3)
    by (apply pick_fresh; [reflexivity | simpl; tauto | simpl; lia]).
  pose proof (pick_fresh 3 B [A] _ H1 HAB ltac:(simpl; lia)) as H2.
  pose proof (pick_fresh 3 C [B; A] _ H2 HC ltac:(simpl; lia)) as H3.
  assert (Hw : colours w = [C; B; A]).
  { unfold w, colours, picks. cbn [map run fold_left]. now rewrite H3. }
  split; [exact Hw|].
  destruct (General 3%nat (picks [A; B; C]) (sampled B) B 1%nat
              (sample_of_sampled B)) as (Hc & _ & _ & Hi & _).
  { fold w. now rewrite Hw. }
  fold w in Hc, Hi. rewrite Hw in Hc. split; [exact Hc | exact Hi].
Qed.

(** Both parts at concrete colours, capacity 3. *)
Lemma move_to_front_witness :
  let w := run (init_window 3) (picks [(1, 1, 1); (2, 2, 2); (3, 3, 3)]) in
  colours w = [(3, 3, 3); (2, 2, 2); (1, 1, 1)] /\
  colours (step w (DoPick (sampled (2, 2, 2))))
  = [(2, 2, 2); (3, 3, 3); (1, 1, 1)] /\
  history_index (step w (DoPick (sampled (2, 2, 2)))) = 0 /\
  selected_rgb (step w (DoPick (sampled (1, 1, 1)))) = Some (1, 1, 1).
Proof.
  intros w.
  destruct (proj2 move_to_front (1, 1, 1) (2, 2, 2) (3, 3, 3))
    as (Hw & Hc & Hi).
  { repeat constructor; simpl; intuition discriminate. }
  split; [exact Hw|]. split; [exact Hc|]. split; [exact Hi|].
  apply (proj1 move_to_front 3%nat
           (picks [(1, 1, 1); (2, 2, 2); (3, 3, 3)])
           (sampled (1, 1, 1)) (1, 1, 1) 2%nat); reflexivity.
Defined.

End History.

(** ** The selection *)

Section Selection.

Lemma len_pos (w : Window) : colours w <> [] -> 0 < Deque.len (history w).
Proof.
  unfold colours, Deque.len.
  destruct (Deque.items (history w)); [congruence | simpl; lia].
Qed.

(** An arrow key on a non-empty history: the history stays, the cursor
    moves by one modulo the size and the colour there is selected. *)
Lemma arrow_fields (k : key) (delta : Z) (w : Window) :
  (k = Key_Down /\ delta = 1) \/ (k = Key_Up /\ delta = -1) ->
  colours w <> [] ->
  let w' := step w (DoKey k) in
  history w' = history w /\
  history_index w' = (history_index w + delta) mod Deque.len (history w) /\
  0 <= history_index w' < Deque.len (history w) /\
  selected_rgb w' = nth_error (colours w) (Z.to_nat (history_index w')).
Proof.
  intros Hk Hne w'. pose proof (len_pos w Hne) as Hn.
  set (index := (history_index w + delta) mod Deque.len (history w)).
  assert (Hrun : w' = exec (select_history_index index) w).
  { unfold w', step, index. cbn [handler].
    destruct Hk as [[-> ->]|[-> ->]];
      [now apply key_down_run | now apply key_up_run]. }
  assert (Hr : 0 <= index < Deque.len (history w))
    by (apply Z.mod_pos_bound; exact Hn).
  destruct (select_history_index_fields index w Hne)
    as (Hh & _ & _ & Hi & Hs & _).
  rewrite (clamp_in_range _ _ Hr) in Hi, Hs.
  rewrite Hrun, Hh, Hi, Hs. auto.
Qed.

Lemma key_down_iter (k : nat) (w : Window) :
  colours w <> [] ->
  let w' := run w (repeat (DoKey Key_Down) k) in
  history w' = history w /\
  history_index w' =
    (history_index w + Z.of_nat k) mod Deque.len (history w) \/
  k = O /\ w' = w.
Proof.
  revert w. induction k as [|k IH]; intros w Hne; [right; auto|].
  left. cbn [repeat run fold_left].
  destruct (arrow_fields Key_Down 1 w (or_introl (conj eq_refl eq_refl)) Hne)
    as (Hh & Hi & _ & _).
  assert (Hne' : colours (step w (DoKey Key_Down)) <> [])
    by (unfold colours; now rewrite Hh).
  destruct (IH _ Hne') as [(Hh' & Hi')|(-> & Hw)].
  - fold (run (step w (DoKey Key_Down)) (repeat (DoKey Key_Down) k)).
    rewrite Hh', Hi', Hh, Hi. split; [reflexivity|].
    rewrite Zplus_mod_idemp_l. f_equal. lia.
  - cbn [repeat run fold_left]. rewrite Hh, Hi. split; [reflexivity|].
    f_equal.
Qed.

(** C3. Cyclic step: on a non-empty history of size [n] with the cursor
    in range, the arrow key that steps by +1 (Down) sets the cursor to
    [(cursor + 1) mod n] and the one that steps by -1 (Up) sets it to
    [(cursor - 1) mod n], both non-negative and below [n]; [n] steps of +1
    come back to the cursor they started from, in particular to 0 from 0,
    and one step of -1 from cursor 0 lands on [n - 1]. On an empty history
    a key leaves the window as it is. *)
Theorem cyclic_step (w : Window) :
  let n := Deque.len (history w) in
  let i := history_index w in
  let down := step w (DoKey Key_Down) in
  let up := step w (DoKey Key_Up) in
  (colours w <> [] -> 0 <= i < n ->
   history_index down = (i + 1) mod n /\
   0 <= history_index down < n /\
   history_index up = (i - 1) mod n /\
   0 <= history_index up < n /\
   history_index (run w (repeat (DoKey Key_Down) (Z.to_nat n))) = i /\
   (i = 0 ->
    history_index (run w (repeat (DoKey Key_Down) (Z.to_nat n))) = 0 /\
    history_index up = n - 1)) /\
  (colours w = [] -> forall k, step w (DoKey k) = w).
Proof.
  intros n i down up. split.
  - intros Hne Hi. pose proof (len_pos w Hne) as Hn. fold n in Hn.
    destruct (arrow_fields Key_Down 1 w (or_introl (conj eq_refl eq_refl)) Hne)
      as (_ & Hd & Hdr & _).
    destruct (arrow_fields Key_Up (-1) w (or_intror (conj eq_refl eq_refl)) Hne)
      as (_ & Hu & Hur & _).
    fold n i down in Hd, Hdr. fold n i up in Hu, Hur.
    assert (Hloop :
      history_index (run w (repeat (DoKey Key_Down) (Z.to_nat n))) = i).
    { destruct (key_down_iter (Z.to_nat n) w Hne) as [(_ & Hk)|(Hz & _)];
        [|lia].
      rewrite Hk. fold n i. rewrite Z2Nat.id by lia.
      rewrite <- (Z.mul_1_l n) at 1. rewrite Z.mod_add by lia.
      apply Z.mod_small. exact Hi. }
    split; [exact Hd|]. split; [exact Hdr|]. split; [exact Hu|].
    split; [exact Hur|]. split; [exact Hloop|].
    intros Hz. split.
    + rewrite Hloop. exact Hz.
    + rewrite Hu, Hz. symmetry. apply (Z.mod_unique_pos _ _ (-1)); lia.
  - intros Hempty k. unfold step. cbn [handler].
    now apply key_empty_run.
Qed.

(** Three colours, cursor 0: the wrap of the specification, and a key
    on the empty history. *)
Lemma cyclic_step_witness :
  let w := run (init_window 10)
             (picks [(3, 3, 3); (2, 2, 2); (1, 1, 1)]) in
  history_index (step w (DoKey Key_Down)) = 1 /\
  history_index (run w [DoKey Key_Down; DoKey Key_Down; DoKey Key_Down]) = 0 /\
  history_index (step w (DoKey Key_Up)) = 2 /\
  step (init_window 10) (DoKey Key_Up) = init_window 10.
Proof.
  intros w.
  assert (Hne : colours w <> []) by discriminate.
  assert (Hi : 0 <= history_index w < Deque.len (history w))
    by (vm_compute; split; congruence).
  destruct (proj1 (cyclic_step w) Hne Hi) as (Hd & _ & _ & _ & _ & Hz).
  destruct (Hz eq_refl) as (Hloop & Hu).
  split; [exact Hd|]. split; [exact Hloop|]. split; [exact Hu|].
  apply (proj2 (cyclic_step (init_window 10)) eq_refl Key_Up).
Defined.

(** What [select_history_index] does with any index (the part of C1 that
    holds of the code): nothing on an empty history; otherwise the cursor
    is the index clamped into [0, len - 1] and the colour there is
    selected. *)
Lemma select_history_index_clamps (index : Z) (w : Window) :
  let w' := exec (select_history_index index) w in
  match colours w with
  | [] => w' = w
  | _ :: _ =>
      history_index w' = Z.max 0 (Z.min index (Deque.len (history w) - 1)) /\
      0 <= history_index w' < Deque.len (history w) /\
      selected_rgb w' = nth_error (colours w) (Z.to_nat (history_index w'))
  end.
Proof.
  intros w'. destruct (colours w) as [|c l] eqn:E.
  - now apply select_history_index_empty.
  - assert (Hne : colours w <> []) by (rewrite E; discriminate).
    destruct (select_history_index_fields index w Hne)
      as (_ & _ & _ & Hi & Hs & Hr).
    fold w' in Hi, Hs. rewrite Hi, Hs, <- E. unfold clamp in *. auto.
Qed.

(** X15. A click on a row never moves the cursor or the selection, in any
    window the event loop can reach: every row was written by
    [refresh_history_list], and on such a text the parse of
    [on_history_clicked] raises. *)
Lemma click_never_selects (m : nat) (es : list event) (row : nat) :
  let w := run (init_window m) es in
  same_selection w (step w (DoClick row)).
Proof.
  intros w. destruct (reachable_ok m es) as (_ & Hrows & _).
  unfold step. cbn [handler]. now apply click_same.
Qed.

(** C1. A click on a row is meant to select it (cursor = row, selected
    colour = the colour of the row); the handler does not get there. Two
    colours are picked and the list is refreshed; the click on row 1
    reaches [on_history_clicked] with the text of that row, the parse of
    lines 257-258 raises, and the handler ends in its [except] branch: the
    cursor is still 0 and the selected colour is still the one of row 0,
    not [(255, 0, 0)] of row 1. *)
Theorem click_row_does_not_select :
  let w := run (init_window MAX_HISTORY)
             (picks [(255, 0, 0); (0, 255, 0)] ++ repeat DoDeliver 10) in
  colours w = [(0, 255, 0); (255, 0, 0)] /\
  list_items (ui w) = ["#00FF00    (0, 255, 0)"; "#FF0000    (255, 0, 0)"] /\
  pending w = [] /\
  PyStr.split "#FF0000    (255, 0, 0)" = ["#FF0000"; "(255,"; "0,"; "0)"] /\
  PyStr.split_on "," (PyStr.strip "()" "0)") = ["0"] /\
  history_index (step w (DoClick 1)) = 0 /\
  selected_rgb (step w (DoClick 1)) = Some (0, 255, 0) /\
  list_row (ui (step w (DoClick 1))) = 1 /\
  status (ui (step w (DoClick 1))) = "选择历史项出错".
Proof. vm_compute. repeat split. Qed.

End Selection.

(** ** The sampler and the clipboard *)

Section Boundaries.

(** The history and the last sample after one event. *)
Lemma step_cases (w : Window) (e : event) :
  match e with
  | DoPick env =>
      match sample_of env with
      | Some c =>
          history (step w e) = moved_to_front c (history w) /\
          current_rgb (step w e) = Some c
      | None =>
          history (step w e) = history w /\
          current_rgb (step w e) = current_rgb w
      end
  | DoClear =>
      history (step w e) = Deque.clear (history w) /\
      current_rgb (step w e) = current_rgb w
  | _ =>
      history (step w e) = history w /\
      current_rgb (step w e) = current_rgb w
  end.
Proof.
  unfold step. destruct e as [env|clip| |k|row|dlg env|env| ];
    cbn [handler].
  - destruct (sample_of env) as [c|] eqn:E.
    + destruct (pick_sampled env c w E) as (Hh & _ & Hc & _). auto.
    + destruct (pick_failed env w E) as (e & _ & ->). auto.
  - destruct (copy_same clip w) as ((Hh & _ & Hc & _) & _). auto.
  - destruct (clear_fields w) as (Hh & _ & _ & _ & Hc & _). auto.
  - destruct (key_run k w) as [->|(Hne & index & ->)]; [auto|].
    destruct (select_history_index_fields index w Hne)
      as (Hh & Hc & _). auto.
  - destruct (click_rows row w) as (_ & Hh & Hc). auto.
  - destruct (settings_same dlg env w) as ((Hh & _ & Hc & _) & _). auto.
  - destruct (register_same env w) as ((Hh & _ & Hc & _) & _). auto.
  - destruct (deliver_same w) as ((Hh & _ & Hc & _) & _). auto.
Qed.

(** [current_rgb] is the last colour sampled. *)
Lemma run_current_rgb (es : list event) (w : Window) :
  current_rgb (run w es) = last_sample es (current_rgb w).
Proof.
  revert w. induction es as [|e es IH]; intros w; [reflexivity|].
  cbn [run fold_left]. fold (run (step w e) es). rewrite IH.
  pose proof (step_cases w e) as H.
  destruct e as [env|clip| |k|row|dlg env|env| ]; cbn [last_sample];
    try (now rewrite (proj2 H)).
  destruct (sample_of env); now rewrite (proj2 H).
Qed.

(** With a sampler that keeps its promise, every colour the window holds
    is made of bytes. *)
Lemma run_bytes (es : list event) (w : Window) :
  Forall samples_bytes es ->
  Forall byte_colour (colours w) ->
  (forall c, current_rgb w = Some c -> byte_colour c) ->
  Forall byte_colour (colours (run w es)) /\
  (forall c, current_rgb (run w es) = Some c -> byte_colour c).
Proof.
  intros Hes. revert w.
  induction Hes as [|e es He Hes IH]; intros w Hcol Hcur; [auto|].
  cbn [run fold_left]. fold (run (step w e) es).
  pose proof (step_cases w e) as H. unfold colours in *.
  apply IH.
  - destruct e as [env|clip| |k|row|dlg env|env| ];
      try (rewrite (proj1 H); exact Hcol).
    + cbn [samples_bytes] in He. destruct (sample_of env) as [c|].
      * rewrite (proj1 H). apply Forall_forall. intros x Hx.
        apply In_moved_to_front in Hx. destruct Hx as [->|Hx]; [exact He|].
        exact (proj1 (Forall_forall _ _) Hcol x Hx).
      * rewrite (proj1 H). exact Hcol.
    + rewrite (proj1 H). constructor.
  - destruct e as [env|clip| |k|row|dlg env|env| ];
      try (rewrite (proj2 H); exact Hcur).
    cbn [samples_bytes] in He. destruct (sample_of env) as [c|].
    + rewrite (proj2 H). now intros c' [= <-].
    + rewrite (proj2 H). exact Hcur.
Qed.

Lemma rgb_to_hex_hex6 (c : rgb) : byte_colour c -> rgb_to_hex_t c = hex6 c.
Proof.
  destruct c as [[r g] b]. intros (Hr & Hg & Hb).
  now apply rgb_to_hex_bytes.
Qed.

(** The text [copy_selected_color] hands to [pyperclip.copy], whatever
    the clipboard answers: the selected colour, else the newest colour of
    the history, else the last sample, else nothing. *)
Lemma copy_writes (clip : result unit) (w : Window) :
  calls (step w (DoCopy clip)) =
  (calls w ++
   match selected_rgb w with
   | Some c => [ClipboardCopy (rgb_to_hex_t c)]
   | None =>
       match colours w with
       | first :: _ => [ClipboardCopy (rgb_to_hex_t first)]
       | [] =>
           match current_rgb w with
           | Some c => [ClipboardCopy (rgb_to_hex_t c)]
           | None => []
           end
       end
   end)%list.
Proof.
  destruct w as [ph ch hp hc d i cur sel u q cs].
  unfold step, colours. cbn [handler]. unfold copy_selected_color.
  run_handler.
  destruct sel as [c|]; [destruct clip; reflexivity|].
  destruct (Deque.items d) as [|first l]; [|destruct clip; reflexivity].
  destruct cur as [c|]; [destruct clip; reflexivity|].
  run_handler. now rewrite app_nil_r.
Qed.

(** C2, amended. In a window with a history of positive
    capacity whose sampler returns bytes: when the history is not empty,
    the selected colour is the one at the cursor and the copy hands
    exactly its upper-case [#RRGGBB] text to the clipboard; when the
    history is empty, nothing is selected, and the copy hands the
    [#RRGGBB] text of the last sampled colour to the clipboard if a colour
    was ever sampled, and makes no clipboard call otherwise. *)
Theorem copy_writes_selected_or_last_sample
    (m : nat) (es : list event) (clip : result unit) :
  (0 < m)%nat ->
  Forall samples_bytes es ->
  let w := run (init_window m) es in
  let after := calls (step w (DoCopy clip)) in
  match colours w with
  | _ :: _ =>
      exists c,
        0 <= history_index w < Deque.len (history w) /\
        nth_error (colours w) (Z.to_nat (history_index w)) = Some c /\
        selected_rgb w = Some c /\
        rgb_to_hex_t c = hex6 c /\
        after = (calls w ++ [ClipboardCopy (hex6 c)])%list
  | [] =>
      selected_rgb w = None /\
      current_rgb w = last_sample es None /\
      match last_sample es None with
      | Some c =>
          rgb_to_hex_t c = hex6 c /\
          after = (calls w ++ [ClipboardCopy (hex6 c)])%list
      | None => after = calls w
      end
  end.
Proof.
  intros Hpos Hbytes w after.
  destruct (reachable_ok m es) as (_ & _ & Hsel).
  specialize (Hsel Hpos). fold w in Hsel.
  destruct (run_bytes es (init_window m) Hbytes) as (Hcol & Hcur).
  { constructor. }
  { discriminate. }
  fold w in Hcol, Hcur.
  pose proof (run_current_rgb es (init_window m)) as Hlast.
  fold w in Hlast. change (current_rgb (init_window m)) with (@None rgb) in Hlast.
  pose proof (copy_writes clip w) as Hcopy. fold after in Hcopy.
  unfold selection_ok in Hsel.
  destruct (colours w) as [|first l] eqn:E.
  - destruct Hsel as (Hs & _). rewrite Hs in Hcopy.
    split; [exact Hs|]. split; [exact Hlast|].
    rewrite <- Hlast.
    destruct (current_rgb w) as [c|] eqn:Ec.
    + rewrite <- (rgb_to_hex_hex6 c (Hcur c eq_refl)). auto.
    + now rewrite app_nil_r in Hcopy.
  - destruct Hsel as (Hr & Hs).
    destruct (nth_error (first :: l) (Z.to_nat (history_index w)))
      as [c|] eqn:En.
    + exists c. rewrite Hs in Hcopy.
      assert (Hb : byte_colour c).
      { apply (proj1 (Forall_forall _ _) Hcol). now apply nth_error_In in En. }
      rewrite <- (rgb_to_hex_hex6 c Hb). auto.
    + apply nth_error_None in En. unfold Deque.len in Hr.
      fold (colours w) in Hr. rewrite E in Hr. lia.
Qed.

(** The theorem at a window with two colours and the cursor on the
    older one. *)
Lemma copy_writes_selected_or_last_sample_witness :
  (0 < 10)%nat /\
  Forall samples_bytes
    (picks [(255, 0, 10); (0, 128, 255)] ++ [DoKey Key_Down]) /\
  let w := run (init_window 10)
             (picks [(255, 0, 10); (0, 128, 255)] ++ [DoKey Key_Down]) in
  let after := calls (step w (DoCopy (Ok tt))) in
  match colours w with
  | _ :: _ =>
      exists c,
        0 <= history_index w < Deque.len (history w) /\
        nth_error (colours w) (Z.to_nat (history_index w)) = Some c /\
        selected_rgb w = Some c /\
        rgb_to_hex_t c = hex6 c /\
        after = (calls w ++ [ClipboardCopy (hex6 c)])%list
  | [] =>
      selected_rgb w = None /\
      current_rgb w =
        last_sample (picks [(255, 0, 10); (0, 128, 255)] ++ [DoKey Key_Down])
          None /\
      match
        last_sample (picks [(255, 0, 10); (0, 128, 255)] ++ [DoKey Key_Down])
          None
      with
      | Some c =>
          rgb_to_hex_t c = hex6 c /\
          after = (calls w ++ [ClipboardCopy (hex6 c)])%list
      | None => after = calls w
      end
  end.
Proof.
  assert (Hpos : (0 < 10)%nat) by lia.
  assert (Hbytes : Forall samples_bytes
            (picks [(255, 0, 10); (0, 128, 255)] ++ [DoKey Key_Down]))
    by (repeat constructor; unfold uint8; lia).
  split; [exact Hpos|]. split; [exact Hbytes|].
  exact (copy_writes_selected_or_last_sample 10
           (picks [(255, 0, 10); (0, 128, 255)] ++ [DoKey Key_Down])
           (Ok tt) Hpos Hbytes).
Defined.

(** C2, counterexample to "on an empty history the copy writes no colour
    to the clipboard": after one pick and a clear the
    history is empty and nothing is selected, yet the copy hands the text
    of the sampled colour to the clipboard. *)
Lemma copy_after_clear_writes :
  let w := run (init_window MAX_HISTORY)
             [DoPick (sampled (1, 2, 3)); DoClear] in
  colours w = [] /\
  selected_rgb w = None /\
  calls w = [] /\
  calls (step w (DoCopy (Ok tt))) = [ClipboardCopy "#010203"].
Proof. vm_compute. repeat split. Qed.

(** C8. Atomicity on sampling failure: when [pyautogui.position] or the
    [pyautogui.pixel] call after it raises, the pick leaves the history,
    the cursor, the selected colour, the last sample, the widgets and the
    outside world as they were; the only change is one queued status
    message carrying the text of the exception. *)
Theorem pick_failure_atomic (w : Window) (env : sampler) (e : string) :
  position env = Raise e \/
  (exists xy, position env = Ok xy) /\ pixel env = Raise e ->
  let w' := step w (DoPick env) in
  w' = set_pending (pending w ++ [SetStatus ("取色失败: " ++ e)])%list w /\
  colours w' = colours w /\
  history_index w' = history_index w /\
  selected_rgb w' = selected_rgb w /\
  current_rgb w' = current_rgb w /\
  ui w' = ui w /\
  calls w' = calls w.
Proof.
  intros H w'.
  assert (Hw : w' =
    set_pending (pending w ++ [SetStatus ("取色失败: " ++ e)])%list w).
  { unfold w', step. cbn [handler].
    destruct env as [[[x y]|e0] [[[r g] b]|e1]]; cbn [position pixel] in H;
      destruct H as [H|[[xy H0] H]]; try discriminate;
      injection H as ->; reflexivity. }
  rewrite Hw. destruct w as [ph ch hp hc d i cur sel u q cs].
  repeat split.
Qed.

(** A pick whose [pixel] call raises, after two successful picks. *)
Lemma pick_failure_atomic_witness :
  let w := run (init_window 10) (picks [(1, 2, 3); (4, 5, 6)]) in
  let w' := step w (DoPick (unreadable "screen grab failed")) in
  w' = set_pending
         (pending w ++ [SetStatus "取色失败: screen grab failed"])%list w /\
  colours w' = [(4, 5, 6); (1, 2, 3)] /\
  history_index w' = 0 /\
  selected_rgb w' = Some (4, 5, 6) /\
  current_rgb w' = Some (4, 5, 6) /\
  ui w' = ui w /\
  calls w' = calls w.
Proof.
  intros w w'.
  apply (pick_failure_atomic w (unreadable "screen grab failed")
           "screen grab failed").
  right. split; [now exists (0, 0) | reflexivity].
Defined.

(** C10. [clear_history] empties the history and the list, puts the
    cursor at 0 and the selection at [None], and leaves [current_rgb] as
    it was; so after a trace with at least one successful pick, a clear
    and then a copy hand the text of the last sampled colour to the
    clipboard. *)
Theorem clear_keeps_last_sample :
  (forall w : Window,
      let w' := step w DoClear in
      colours w' = [] /\
      list_items (ui w') = [] /\
      history_index w' = 0 /\
      selected_rgb w' = None /\
      current_rgb w' = current_rgb w) /\
  (forall (m : nat) (es : list event) (c : rgb) (clip : result unit),
      last_sample es None = Some c ->
      let w := run (init_window m) (es ++ [DoClear]) in
      colours w = [] /\
      selected_rgb w = None /\
      current_rgb w = Some c /\
      calls (step w (DoCopy clip)) =
      (calls w ++ [ClipboardCopy (rgb_to_hex_t c)])%list).
Proof.
  assert (Hclear : forall w : Window,
      let w' := step w DoClear in
      colours w' = [] /\
      list_items (ui w') = [] /\
      history_index w' = 0 /\
      selected_rgb w' = None /\
      current_rgb w' = current_rgb w).
  { intros w. destruct w as [ph ch hp hc d i cur sel u q cs].
    repeat split. }
  split; [exact Hclear|].
  intros m es c clip Hlast w.
  assert (Hw : w = step (run (init_window m) es) DoClear).
  { unfold w. rewrite run_app. reflexivity. }
  destruct (Hclear (run (init_window m) es)) as (Hc & _ & _ & Hs & Hcur).
  rewrite <- Hw in Hc, Hs, Hcur.
  rewrite run_current_rgb in Hcur.
  change (current_rgb (init_window m)) with (@None rgb) in Hcur.
  rewrite Hlast in Hcur.
  split; [exact Hc|]. split; [exact Hs|]. split; [exact Hcur|].
  now rewrite copy_writes, Hs, Hc, Hcur.
Qed.

(** Two picks, a clear, a copy. *)
Lemma clear_keeps_last_sample_witness :
  let w := run (init_window 10)
             (picks [(1, 2, 3); (255, 128, 0)] ++ [DoClear]) in
  colours w = [] /\
  selected_rgb w = None /\
  current_rgb w = Some (255, 128, 0) /\
  calls (step w (DoCopy (Ok tt))) =
  (calls w ++ [ClipboardCopy (rgb_to_hex_t (255, 128, 0))])%list.
Proof.
  intros w.
  apply (proj2 clear_keeps_last_sample 10%nat
           (picks [(1, 2, 3); (255, 128, 0)]) (255, 128, 0) (Ok tt)).
  reflexivity.
Defined.

End Boundaries.

(** ** The hotkeys *)

Section Hotkeys.

(** C9. Independent rebind outcomes: whatever the registrar answers, a
    run of [register_hotkeys] first calls [remove_hotkey] for each handler
    the window holds and only then [add_hotkey] for pick and for copy,
    both always; each action ends bound to its new handle when its own
    registration succeeded and unbound when it raised, whatever happened
    to the other; and the report is queued after both attempts, with the
    message of every registration that failed. Nothing else is queued: the
    invocation of line 170 is refused. *)
Theorem rebind_independent (env : registrar) (w : Window) :
  let w' := step w (DoRegister env) in
  pick_handler w' = bound (add_pick env) /\
  copy_handler w' = bound (add_copy env) /\
  calls w' =
    (calls w ++ removals w ++
     [AddHotkey (pick_hotkey w) Pick; AddHotkey (copy_hotkey w) Copy])%list /\
  pending w' = (pending w ++ report env w)%list.
Proof.
  destruct w as [ph ch [hp|] [hc|] d i cur sel u q cs],
    env as [[|] [|] [|] [|]];
    unfold step, removals, report, failures, bound; cbn [handler];
    unfold register_hotkeys; run_handler;
    cbn [add_pick add_copy remove_pick remove_copy List.app PyStr.join];
    rewrite <- ?app_assoc, ?app_nil_r; repeat split.
Qed.

(** The example of the specification: the pick pattern is refused and
    the copy pattern accepted. *)
Example rebind_pick_refused :
  let env := {| remove_pick := Ok tt; remove_copy := Ok tt;
                add_pick := Raise "bad pattern"; add_copy := Ok 8%nat |} in
  let w := step (init_window 10) (DoRegister (accepting 1%nat)) in
  let w' := step w (DoRegister env) in
  pick_handler w = Some 1%nat /\ copy_handler w = Some 2%nat /\
  pick_handler w' = None /\ copy_handler w' = Some 8%nat /\
  calls w' = [AddHotkey "e" Pick; AddHotkey "ctrl+c" Copy;
              RemoveHotkey 1%nat; RemoveHotkey 2%nat;
              AddHotkey "e" Pick; AddHotkey "ctrl+c" Copy] /\
  pending w' =
    [SetStatus "热键已注册：取色 e / 复制 ctrl+c";
     SetStatus "注册取色热键失败: bad pattern";
     ShowErrorBox "注册取色热键失败: bad pattern"].
Proof. vm_compute. repeat split. Qed.

End Hotkeys.

(** ** The history as a function of the trace *)

Section Recency.

Lemma other_than_absent (c : rgb) (l : list rgb) :
  ~ In c l -> filter (other_than c) l = l.
Proof. apply filter_absent. Qed.

Lemma filter_remove_first (c : rgb) (l : list rgb) :
  NoDup l ->
  filter (other_than c) l =
  match Deque.remove_first c l with
  | Some r => r
  | None => l
  end.
Proof.
  induction 1 as [|y l Hy Hnd IH]; [reflexivity|].
  simpl. unfold other_than at 1. destruct (rgb_eqb y c) eqn:E; simpl.
  - apply rgb_eqb_eq in E. subst y. now apply other_than_absent.
  - rewrite IH. now destruct (Deque.remove_first c l).
Qed.

(** Lines 210-219 in closed form: the colour in front of the others, cut
    at the capacity. *)
Lemma moved_to_front_closed (c : rgb) (d : Deque.t) :
  NoDup (Deque.items d) ->
  (List.length (Deque.items d) <= Deque.maxlen d)%nat ->
  Deque.items (moved_to_front c d) =
  firstn (Deque.maxlen d) (c :: filter (other_than c) (Deque.items d)).
Proof.
  intros Hnd Hlen. rewrite (filter_remove_first c _ Hnd).
  unfold moved_to_front, Deque.appendleft.
  destruct (Deque.contains c d) eqn:E.
  - apply contains_In in E.
    destruct (remove_first_present c _ E) as (l1 & l2 & Hl & _ & ->).
    cbn [Deque.items Deque.maxlen]. rewrite Hl, length_app in Hlen.
    cbn [List.length] in *.
    rewrite (proj2 (Nat.ltb_ge _ _)) by (rewrite length_app; lia).
    rewrite firstn_all2; [reflexivity|].
    cbn [List.length]. rewrite length_app. lia.
  - assert (Hout : ~ In c (Deque.items d)).
    { intros H. apply contains_In in H. congruence. }
    rewrite (remove_first_absent c _ Hout).
    destruct (Deque.maxlen d <? List.length (c :: Deque.items d))%nat eqn:El.
    + apply Nat.ltb_lt in El. cbn [List.length] in El.
      rewrite removelast_firstn_len. cbn [List.length pred Deque.items].
      f_equal. lia.
    + apply Nat.ltb_ge in El. cbn [Deque.items]. now rewrite firstn_all2.
Qed.

(** Cutting before the filter loses nothing: at most one colour goes. *)
Lemma firstn_filter_firstn (c : rgb) (k : nat) (l : list rgb) :
  NoDup l ->
  firstn k (filter (other_than c) (firstn (S k) l)) =
  firstn k (filter (other_than c) l).
Proof.
  intros Hnd. revert k. induction Hnd as [|y l Hy Hnd IH]; intros k.
  - reflexivity.
  - destruct k as [|k]; [reflexivity|].
    change (firstn (S (S k)) (y :: l)) with (y :: firstn (S k) l).
    cbn [filter]. destruct (other_than c y) eqn:E.
    + cbn [firstn]. f_equal. apply IH.
    + assert (Hyc : y = c).
      { unfold other_than in E. apply negb_false_iff in E.
        now apply rgb_eqb_eq. }
      subst y. rewrite (other_than_absent c l Hy).
      rewrite other_than_absent.
      * rewrite firstn_firstn. f_equal. lia.
      * intros H. apply Hy. revert H. clear.
        generalize (S k). intros n. revert n.
        induction l as [|z l IH]; intros [|n]; simpl; try tauto.
        intros [H|H]; [auto | right; eauto].
Qed.

Lemma NoDup_recent_step (c : rgb) (acc : list rgb) :
  NoDup acc -> NoDup (c :: filter (other_than c) acc).
Proof.
  intros Hnd. constructor; [|now apply NoDup_filter].
  rewrite filter_In. unfold other_than. rewrite rgb_eqb_refl.
  intros [_ H]. discriminate H.
Qed.

Lemma run_recent (m : nat) (es : list event) (w : Window) (acc : list rgb) :
  history_ok m w -> NoDup acc -> colours w = firstn m acc ->
  colours (run w es) = firstn m (recent es acc) /\ NoDup (recent es acc).
Proof.
  revert w acc. induction es as [|e es IH]; intros w acc Hok Hnd Hw;
    [auto|].
  cbn [run fold_left]. fold (run (step w e) es).
  pose proof (step_history_ok m w e Hok) as Hok'.
  pose proof (step_cases w e) as H.
  destruct Hok as (Hm & Hndw & Hlen). unfold colours in *.
  destruct e as [env|clip| |k|row|dlg env|env| ]; cbn [recent];
    try (apply IH; [exact Hok' | exact Hnd | now rewrite (proj1 H)]).
  - destruct (sample_of env) as [c|].
    + apply IH; [exact Hok' | now apply NoDup_recent_step |].
      rewrite (proj1 H), moved_to_front_closed, Hm, Hw by (auto; lia).
      destruct m as [|k]; [reflexivity|].
      cbn [firstn]. f_equal. now apply firstn_filter_firstn.
    + apply IH; [exact Hok' | exact Hnd | now rewrite (proj1 H)].
  - apply IH; [exact Hok' | constructor |].
    rewrite (proj1 H). now destruct m.
Qed.

Lemma recent_app (es es' : list event) (acc : list rgb) :
  recent (es ++ es') acc = recent es' (recent es acc).
Proof.
  revert acc. induction es as [|e es IH]; intros acc; [reflexivity|].
  destruct e as [env|clip| |k|row|dlg env|env| ]; cbn [List.app recent];
    apply IH.
Qed.

Lemma colours_recent (m : nat) (es : list event) :
  colours (run (init_window m) es) = firstn m (recent es []) /\
  NoDup (recent es []).
Proof.
  apply run_recent.
  - apply init_window_ok.
  - constructor.
  - now destruct m.
Qed.

(** X1. The history is a function of the trace alone: it holds the colours
    sampled since the last clear, each once, the most recently sampled
    first, cut at the capacity. A colour evicted earlier and sampled again
    comes back at the front like a new one. *)
Theorem history_is_recent (m : nat) (es : list event) :
  colours (run (init_window m) es) = firstn m (recent es []) /\
  NoDup (recent es []).
Proof. exact (colours_recent m es). Qed.

Lemma filter_other_than_twice (c : rgb) (l : list rgb) :
  filter (other_than c) (c :: filter (other_than c) l) =
  filter (other_than c) l.
Proof.
  cbn [filter]. unfold other_than at 1. rewrite rgb_eqb_refl. cbn [negb].
  induction l as [|y l IH]; [reflexivity|].
  cbn [filter]. destruct (other_than c y) eqn:E; [|exact IH].
  cbn [filter]. now rewrite E, IH.
Qed.

(** X2. Sampling the same colour twice in a row leaves the history the
    first sample left, with the cursor at 0 both times. *)
Theorem pick_twice (m : nat) (es : list event) (env env' : sampler) (c : rgb) :
  sample_of env = Some c -> sample_of env' = Some c ->
  let w1 := run (init_window m) (es ++ [DoPick env]) in
  let w2 := run (init_window m) (es ++ [DoPick env; DoPick env']) in
  colours w2 = colours w1 /\ history_index w1 = 0 /\ history_index w2 = 0.
Proof.
  intros E E' w1 w2. split; [|split].
  - unfold w1, w2.
    rewrite (proj1 (colours_recent m _)), (proj1 (colours_recent m _)).
    rewrite !recent_app. cbn [recent]. rewrite E, E'.
    now rewrite filter_other_than_twice.
  - unfold w1. rewrite run_app. cbn [run fold_left].
    apply (pick_sampled env c _ E).
  - unfold w2. rewrite run_app. cbn [run fold_left].
    apply (pick_sampled env' c _ E').
Qed.

(** A pick at capacity 3, twice. *)
Lemma pick_twice_witness :
  sample_of (sampled (7, 8, 9)) = Some (7, 8, 9) /\
  sample_of (sampled_at 4 5 (7, 8, 9)) = Some (7, 8, 9) /\
  let w1 := run (init_window 3)
              (picks [(1, 1, 1); (7, 8, 9); (2, 2, 2)]
               ++ [DoPick (sampled (7, 8, 9))]) in
  let w2 := run (init_window 3)
              (picks [(1, 1, 1); (7, 8, 9); (2, 2, 2)]
               ++ [DoPick (sampled (7, 8, 9));
                   DoPick (sampled_at 4 5 (7, 8, 9))]) in
  colours w2 = colours w1 /\ history_index w1 = 0 /\ history_index w2 = 0.
Proof.
  split; [reflexivity|]. split; [reflexivity|].
  exact (pick_twice 3 (picks [(1, 1, 1); (7, 8, 9); (2, 2, 2)])
           (sampled (7, 8, 9)) (sampled_at 4 5 (7, 8, 9)) (7, 8, 9)
           eq_refl eq_refl).
Defined.

End Recency.

(** ** Picks, clears and the cursor *)

Section Cursor.

(** X3. After a clear, the next successful pick leaves a history of that
    colour alone (for a positive capacity), with the cursor at 0 and the
    colour selected. *)
Theorem clear_then_pick (m : nat) (es : list event) (env : sampler) (c : rgb) :
  (0 < m)%nat -> sample_of env = Some c ->
  let w := run (init_window m) (es ++ [DoClear; DoPick env]) in
  colours w = [c] /\ history_index w = 0 /\ selected_rgb w = Some c /\
  current_rgb w = Some c.
Proof.
  intros Hpos E w.
  assert (Hc : colours w = [c]).
  { unfold w. rewrite (proj1 (colours_recent m _)), recent_app.
    cbn [recent]. rewrite E. destruct m; [lia|].
    cbn [firstn filter]. now rewrite firstn_nil. }
  split; [exact Hc|].
  unfold w in *. rewrite run_app in *. cbn [run fold_left] in *.
  set (w0 := step (run (init_window m) es) DoClear) in *.
  destruct (pick_sampled env c w0 E) as (Hh & Hi & Hcur & Hs & _).
  change (exec (pick_under_cursor env) w0) with (step w0 (DoPick env))
    in Hh, Hi, Hcur, Hs.
  unfold colours in Hc. rewrite Hh in Hc. rewrite Hc in Hs. auto.
Qed.

Lemma clear_then_pick_witness :
  (0 < 10)%nat /\ sample_of (sampled (9, 8, 7)) = Some (9, 8, 7) /\
  let w := run (init_window 10)
             (picks [(1, 1, 1); (2, 2, 2)]
              ++ [DoClear; DoPick (sampled (9, 8, 7))]) in
  colours w = [(9, 8, 7)] /\ history_index w = 0 /\
  selected_rgb w = Some (9, 8, 7) /\ current_rgb w = Some (9, 8, 7).
Proof.
  assert (Hpos : (0 < 10)%nat) by lia.
  split; [exact Hpos|]. split; [reflexivity|].
  exact (clear_then_pick 10 (picks [(1, 1, 1); (2, 2, 2)])
           (sampled (9, 8, 7)) (9, 8, 7) Hpos eq_refl).
Defined.

(** X4. A history created with capacity 0 never holds a colour; a
    successful pick then selects the sampled colour itself (the [else] of
    line 232), and that is what a copy hands to the clipboard. *)
Theorem capacity_zero (es : list event) (env : sampler) (c : rgb)
    (clip : result unit) :
  sample_of env = Some c ->
  let w := run (init_window 0) es in
  let w' := step w (DoPick env) in
  colours w = [] /\ colours w' = [] /\
  selected_rgb w' = Some c /\
  calls (step w' (DoCopy clip)) =
  (calls w' ++ [ClipboardCopy (rgb_to_hex_t c)])%list.
Proof.
  intros E w w'.
  assert (Hw : colours w = []).
  { unfold w. now rewrite (proj1 (colours_recent 0 es)). }
  assert (Hw' : colours w' = []).
  { change w' with (run w [DoPick env]). unfold w. rewrite <- run_app.
    now rewrite (proj1 (colours_recent 0 _)). }
  destruct (pick_sampled env c w E) as (Hh & _ & _ & Hs & _).
  change (exec (pick_under_cursor env) w) with w' in Hh, Hs.
  unfold colours in Hw'. rewrite Hh in Hw'. rewrite Hw' in Hs.
  repeat split; try assumption.
  - unfold colours. now rewrite Hh.
  - now rewrite copy_writes, Hs.
Qed.

Lemma capacity_zero_witness :
  sample_of (sampled (1, 2, 3)) = Some (1, 2, 3) /\
  let w := run (init_window 0) (picks [(5, 5, 5)]) in
  let w' := step w (DoPick (sampled (1, 2, 3))) in
  colours w = [] /\ colours w' = [] /\
  selected_rgb w' = Some (1, 2, 3) /\
  calls (step w' (DoCopy (Ok tt))) =
  (calls w' ++ [ClipboardCopy (rgb_to_hex_t (1, 2, 3))])%list.
Proof.
  split; [reflexivity|].
  exact (capacity_zero (picks [(5, 5, 5)]) (sampled (1, 2, 3)) (1, 2, 3)
           (Ok tt) eq_refl).
Defined.

(** X5. The cursor and the selection agree in every window the event loop
    reaches (for a positive capacity): on a non-empty history the cursor is
    a valid index and the selected colour is the colour at the cursor; on
    an empty history the cursor is 0 and nothing is selected. *)
Theorem selection_invariant (m : nat) (es : list event) :
  (0 < m)%nat ->
  let w := run (init_window m) es in
  match colours w with
  | [] => selected_rgb w = None /\ history_index w = 0
  | _ :: _ =>
      0 <= history_index w < Deque.len (history w) /\
      selected_rgb w = nth_error (colours w) (Z.to_nat (history_index w))
  end.
Proof.
  intros Hpos. exact (proj2 (proj2 (reachable_ok m es)) Hpos).
Qed.

Lemma selection_invariant_witness :
  (0 < 4)%nat /\
  let w := run (init_window 4)
             (picks [(1, 1, 1); (2, 2, 2); (3, 3, 3)]
              ++ [DoKey Key_Up; DoClick 0; DoDeliver; DoKey Key_Up]) in
  match colours w with
  | [] => selected_rgb w = None /\ history_index w = 0
  | _ :: _ =>
      0 <= history_index w < Deque.len (history w) /\
      selected_rgb w = nth_error (colours w) (Z.to_nat (history_index w))
  end.
Proof.
  assert (Hpos : (0 < 4)%nat) by lia.
  split; [exact Hpos|].
  exact (selection_invariant 4
           (picks [(1, 1, 1); (2, 2, 2); (3, 3, 3)]
            ++ [DoKey Key_Up; DoClick 0; DoDeliver; DoKey Key_Up]) Hpos).
Defined.

Lemma select_history_index_returns (index : Z) (w : Window) :
  fst (select_history_index index w) = Ok tt.
Proof.
  destruct (colours w) as [|c l] eqn:E.
  - destruct w as [ph ch hp hc d i cur sel u q cs].
    unfold select_history_index, colours in *. run_handler.
    cbn [history] in E. now rewrite E.
  - assert (Hne : colours w <> []) by (rewrite E; discriminate).
    destruct (select_history_index_fields index w Hne)
      as (_ & _ & _ & _ & _ & Hr).
    assert (Hr' : 0 <= clamp index w < Z.of_nat (List.length (colours w))).
    { exact Hr. }
    destruct (getitem_in_range _ _ Hr') as (a & _ & Hget).
    unfold clamp, colours in *.
    destruct w as [ph ch hp hc d i cur sel u q cs].
    unfold select_history_index. run_handler. cbn [history] in *.
    rewrite E. rewrite E in Hget. unfold Deque.len in *.
    rewrite E in *. now rewrite Hget.
Qed.

Lemma handler_returns (e : event) (w : Window) :
  fst (handler e w) =
  match e with
  | DoRegister _ => Raise invoke_failed
  | _ => Ok tt
  end.
Proof.
  destruct e as [env|clip| |k|row|dlg env|env| ]; cbn [handler].
  - destruct w as [ph ch hp hc d i cur sel u q cs].
    unfold pick_under_cursor. run_handler.
    repeat (split_test; run_handler); try reflexivity;
      rewrite !history_add_run; reflexivity.
  - destruct w as [ph ch hp hc d i cur sel u q cs].
    unfold copy_selected_color. run_handler.
    repeat (split_test; run_handler); reflexivity.
  - reflexivity.
  - destruct w as [ph ch hp hc d i cur sel u q cs].
    unfold keyPressEvent. run_handler.
    destruct (Deque.items d) eqn:E; [reflexivity|].
    destruct k; try reflexivity; apply select_history_index_returns.
  - destruct w as [ph ch hp hc d i cur sel u q cs].
    unfold click, on_history_clicked. run_handler.
    repeat (split_test; run_handler); reflexivity.
  - destruct w as [ph ch hp hc d i cur sel u q cs].
    unfold open_settings, register_hotkeys. run_handler.
    repeat (split_test; run_handler); reflexivity.
  - destruct w as [ph ch hp hc d i cur sel u q cs].
    unfold register_hotkeys. run_handler.
    repeat (split_test; run_handler); reflexivity.
  - destruct w as [ph ch hp hc d i cur sel u q cs].
    unfold deliver, dispatch, refresh_history_list. run_handler.
    repeat (split_test; run_handler); reflexivity.
Qed.

(** X6. Which handlers let an exception out. Whatever the sampler, the
    clipboard and the registrar answer, and whatever the text of the
    clicked row, the pick, the copy, the clear, a key, a click, the
    settings dialog and a delivery return normally. A run of
    [register_hotkeys] never does: once its calls, its assignments and its
    report are made, the invocation of line 170 raises [RuntimeError]; the
    settings dialog runs it in a thread and is not reached by it. *)
Theorem handlers_outcome (e : event) (w : Window) :
  fst (handler e w) =
  match e with
  | DoRegister _ => Raise invoke_failed
  | _ => Ok tt
  end.
Proof. exact (handler_returns e w). Qed.

End Cursor.

(** ** The widgets *)

Section Widgets.

(** [refresh_history_list] writes one row per colour, in the order of the
    history, and makes the row of the (clamped) cursor current. *)
Lemma refresh_history_list_run (w : Window) :
  refresh_history_list w =
  (Ok tt,
   set_ui
     (with_list_row
        (match colours w with
         | [] => -1
         | _ :: _ => clamp (history_index w) w
         end)
        (with_list_items (map item_text (colours w)) (ui w))) w).
Proof.
  destruct w as [ph ch hp hc d i cur sel u q cs].
  unfold refresh_history_list, colours, clamp, Deque.len. run_handler.
  destruct (Deque.items d) as [|c l]; [reflexivity|].
  cbn [map List.length]. rewrite !length_map.
  replace (0 <? Z.of_nat (S (List.length l))) with true
    by (symmetry; apply Z.ltb_lt; lia).
  cbv iota. cbn [List.length]. rewrite ?length_map.
  set (idx := Z.max 0 (Z.min i (Z.of_nat (S (List.length l)) - 1))).
  replace ((0 <=? idx) && (idx <? Z.of_nat (S (List.length l)))) with true
    by (symmetry; apply andb_true_iff;
        split; [apply Z.leb_le | apply Z.ltb_lt]; unfold idx; lia).
  reflexivity.
Qed.

(** X7. Once the event loop has delivered the five invocations a
    successful pick queued, the widgets show the pick: one row per colour of
    the history in its order, the row of the cursor (row 0) current, and
    the labels, the swatch and the status line carrying the sampled colour.
    The deliveries leave the history, the cursor and the selection alone. *)
Theorem pick_then_deliver (x y : Z) (c : rgb) (w : Window) :
  pending w = [] ->
  let w1 := step w (DoPick (sampled_at x y c)) in
  let w2 := run w1 (repeat DoDeliver 5) in
  pending w1 = pick_queue x y c /\
  pending w2 = [] /\
  same_selection w1 w2 /\
  list_items (ui w2) = map item_text (colours w1) /\
  list_row (ui w2) = (match colours w1 with [] => -1 | _ :: _ => 0 end) /\
  label_hex (ui w2) = "HEX: " ++ rgb_to_hex_t c /\
  swatch (ui w2) =
    "background-color: " ++ rgb_to_hex_t c ++ "; border: 1px solid #000;" /\
  status (ui w2) = "已采样并加入/更新历史: " ++ rgb_to_hex_t c.
Proof.
  intros Hq w1 w2.
  destruct w as [ph ch hp hc d i cur sel u q cs]. cbn [pending] in Hq.
  subst q. destruct c as [[r g] b].
  set (d' := moved_to_front (r, g, b) d).
  assert (H1 : w1 =
    {| pick_hotkey := ph; copy_hotkey := ch; pick_handler := hp;
       copy_handler := hc; history := d'; history_index := 0;
       current_rgb := Some (r, g, b);
       selected_rgb := match Deque.items d' with
                       | first :: _ => Some first
                       | [] => Some (r, g, b)
                       end;
       ui := u; pending := pick_queue x y (r, g, b); calls := cs |}).
  { unfold w1, step, sampled_at. cbn [handler].
    unfold pick_under_cursor, position, pixel.
    run_handler. rewrite history_add_run. run_handler. reflexivity. }
  assert (H2 : w2 =
    set_pending []
      (set_ui
         (with_status ("已采样并加入/更新历史: " ++ rgb_to_hex_t (r, g, b))
            (with_list_row
               (match Deque.items d' with [] => -1 | _ :: _ => 0 end)
               (with_list_items (map item_text (Deque.items d'))
                  (with_swatch
                     ("background-color: " ++ rgb_to_hex_t (r, g, b)
                      ++ "; border: 1px solid #000;")
                     (with_label_hex ("HEX: " ++ rgb_to_hex_t (r, g, b))
                        (with_label_rgb
                           ("RGB: " ++ PyStr.str_int r ++ ", "
                            ++ PyStr.str_int g ++ ", " ++ PyStr.str_int b
                            ++ "  (pos: " ++ PyStr.str_int x ++ ","
                            ++ PyStr.str_int y ++ ")") u)))))) w1)).
  { unfold w2. rewrite H1. cbn [repeat run fold_left].
    unfold step. cbn [handler]. unfold deliver, pick_queue.
    run_handler. cbn [dispatch]. run_handler.
    cbn [dispatch]. run_handler. cbn [dispatch]. run_handler.
    cbn [dispatch]. rewrite refresh_history_list_run.
    unfold colours, clamp, Deque.len. run_handler. cbn [dispatch].
    run_handler.
    destruct (Deque.items d') as [|first l]; [reflexivity|].
    cbn [List.length].
    replace (Z.max 0 (Z.min 0 (Z.of_nat (S (List.length l)) - 1)))
      with 0 by lia.
    reflexivity. }
  rewrite H2, H1. unfold colours. cbn [history].
  repeat split.
Qed.

Lemma pick_then_deliver_witness :
  pending (init_window 10) = [] /\
  let w1 := step (init_window 10) (DoPick (sampled_at 3 4 (255, 128, 0))) in
  let w2 := run w1 (repeat DoDeliver 5) in
  pending w1 = pick_queue 3 4 (255, 128, 0) /\
  pending w2 = [] /\
  same_selection w1 w2 /\
  list_items (ui w2) = map item_text (colours w1) /\
  list_row (ui w2) = (match colours w1 with [] => -1 | _ :: _ => 0 end) /\
  label_hex (ui w2) = "HEX: " ++ rgb_to_hex_t (255, 128, 0) /\
  swatch (ui w2) =
    "background-color: " ++ rgb_to_hex_t (255, 128, 0)
    ++ "; border: 1px solid #000;" /\
  status (ui w2) = "已采样并加入/更新历史: " ++ rgb_to_hex_t (255, 128, 0).
Proof.
  split; [reflexivity|].
  exact (pick_then_deliver 3 4 (255, 128, 0) (init_window 10) eq_refl).
Defined.

End Widgets.

(** ** Settings, shutdown and the clipboard *)

Section Settings.

(** [register_hotkeys] in one equation per field. *)
Lemma register_hotkeys_fields (env : registrar) (w : Window) :
  let w' := exec (register_hotkeys env) w in
  pick_handler w' = bound (add_pick env) /\
  copy_handler w' = bound (add_copy env) /\
  calls w' =
    (calls w ++ removals w ++
     [AddHotkey (pick_hotkey w) Pick; AddHotkey (copy_hotkey w) Copy])%list /\
  pick_hotkey w' = pick_hotkey w /\
  copy_hotkey w' = copy_hotkey w /\
  ui w' = ui w.
Proof.
  destruct w as [ph ch [hp|] [hc|] d i cur sel u q cs],
    env as [[|] [|] [|] [|]];
    unfold removals, bound; unfold register_hotkeys; run_handler;
    cbn [add_pick add_copy remove_pick remove_copy List.app];
    rewrite <- ?app_assoc; repeat split.
Qed.

(** The window a thread leaves is the window its body leaves. *)
Lemma exec_thread (body : M unit) (w : Window) :
  exec (thread body) w = exec body w.
Proof.
  unfold exec, thread, try_except. destruct (body w) as [[a|e] w'];
    reflexivity.
Qed.

Lemma open_settings_accepted (p c : string) (env : registrar) (w : Window) :
  PyStr.is_empty (PyStr.strip_ws p) || PyStr.is_empty (PyStr.strip_ws c)
  = false ->
  exec (open_settings (Some (p, c)) env) w =
  exec (register_hotkeys env)
    (exec update_button_labels
       (set_copy_hotkey (PyStr.strip_ws c)
          (set_pick_hotkey (PyStr.strip_ws p) w))).
Proof.
  intros Htest. rewrite <- (exec_thread (register_hotkeys env)).
  unfold open_settings, get_values. cbn [fst snd].
  rewrite Htest. reflexivity.
Qed.

(** X8. The settings dialog: a cancelled dialog changes nothing; when one
    of the two texts is empty once its surrounding white space (that of
    [str.strip()], Unicode white space included) is stripped, the window
    only shows a warning (the hotkeys, the handlers and the registrations
    stay); otherwise the stripped texts become the two
    hotkeys, the buttons show them, and the registrations are renewed with
    the new patterns, old handlers removed first. The history and the
    selection are never touched. *)
Theorem open_settings_outcome (dlg : dialog) (env : registrar) (w : Window) :
  let w' := exec (open_settings dlg env) w in
  match dlg with
  | None => w' = w
  | Some (p, c) =>
      if PyStr.is_empty (PyStr.strip_ws p) || PyStr.is_empty (PyStr.strip_ws c)
      then
        w' = set_calls
               (calls w ++
                [WarningBox "输入错误" "热键不能为空，请输入有效的热键字符串。"])%list w
      else
        pick_hotkey w' = PyStr.strip_ws p /\
        copy_hotkey w' = PyStr.strip_ws c /\
        btn_pick (ui w') = "手动取色 (" ++ PyStr.strip_ws p ++ ")" /\
        btn_copy (ui w') = "复制到剪贴板 (" ++ PyStr.strip_ws c ++ ")" /\
        pick_handler w' = bound (add_pick env) /\
        copy_handler w' = bound (add_copy env) /\
        calls w' =
          (calls w ++ removals w ++
           [AddHotkey (PyStr.strip_ws p) Pick; AddHotkey (PyStr.strip_ws c) Copy])%list /\
        same_selection w w'
  end.
Proof.
  intros w'. destruct dlg as [[p c]|]; [|reflexivity].
  destruct (PyStr.is_empty (PyStr.strip_ws p) || PyStr.is_empty (PyStr.strip_ws c))
    eqn:Htest.
  - unfold w', open_settings, get_values. cbn [fst snd].
    rewrite Htest. reflexivity.
  - unfold w'. rewrite (open_settings_accepted p c env w Htest).
    set (w0 := exec update_button_labels
                 (set_copy_hotkey (PyStr.strip_ws c)
                    (set_pick_hotkey (PyStr.strip_ws p) w))).
    destruct (register_hotkeys_fields env w0)
      as (Hp & Hc & Hcalls & Hph & Hch & Hui).
    destruct (register_same env w0) as ((Hh & Hi & Hcur & Hs) & _).
    rewrite Hp, Hc, Hcalls, Hph, Hch, Hui.
    unfold same_selection. rewrite Hh, Hi, Hcur, Hs.
    destruct w as [ph ch hp hc d i cur sel u q cs]. repeat split.
Qed.

(** [str.strip()] on dialog texts: ASCII blanks, a no-break space
    (U+00A0) and an ideographic space (U+3000) all go; a text made of such
    characters only is empty, and the dialog answers it with the warning. *)
Example strip_ws_examples :
  PyStr.strip_ws "  ctrl+shift+v  " = "ctrl+shift+v" /\
  PyStr.strip_ws (String "194" (String "160" "alt+q")) = "alt+q" /\
  PyStr.strip_ws ("e" ++ String "227" (String "128" (String "128" " ")))
  = "e" /\
  PyStr.strip_ws (String "227" (String "128" (String "128" ""))) = "" /\
  PyStr.strip_ws "win + v" = "win + v" /\
  calls
    (exec
       (open_settings
          (Some (String "227" (String "128" (String "128" "")), "ctrl+c"))
          (accepting 1%nat))
       (init_window 10))
  = [WarningBox "输入错误" "热键不能为空，请输入有效的热键字符串。"] /\
  pick_hotkey
    (exec
       (open_settings
          (Some (String "227" (String "128" (String "128" "")), "ctrl+c"))
          (accepting 1%nat))
       (init_window 10))
  = "e".
Proof. vm_compute. repeat split. Qed.

(** X9. [closeEvent] never raises and assigns nothing: it only calls
    [remove_hotkey]. Both removals sit in one [try]: when the removal of
    the pick handler raises, the copy handler is not removed. *)
Theorem closeEvent_outcome (env : closing) (w : Window) :
  fst (closeEvent env w) = Ok tt /\
  exec (closeEvent env) w =
  set_calls
    (calls w ++
     match pick_handler w, close_pick env with
     | Some hp, Raise _ => [RemoveHotkey hp]
     | _, _ => removals w
     end)%list w.
Proof.
  destruct w as [ph ch [hp|] [hc|] d i cur sel u q cs],
    env as [[[]|] [[]|]];
    unfold closeEvent, removals; run_handler;
    cbn [close_pick close_copy List.app];
    rewrite <- ?app_assoc, ?app_nil_r; split; reflexivity.
Qed.

(** X10. A clipboard that raises: the copy returns normally, the text it
    tried to write is the one a working clipboard would have received, and
    the only other effect is one queued status message carrying the text
    of the exception; with nothing to copy no clipboard call is made. *)
Theorem copy_clipboard_failure (e : string) (w : Window) :
  let w' := step w (DoCopy (Raise e)) in
  fst (copy_selected_color (Raise e) w) = Ok tt /\
  same_selection w w' /\
  ui w' = ui w /\
  calls w' = calls (step w (DoCopy (Ok tt))) /\
  (calls w' = calls w /\
   pending w' = (pending w ++ [SetStatus "无可复制颜色"])%list \/
   (exists text, calls w' = (calls w ++ [ClipboardCopy text])%list) /\
   pending w' = (pending w ++ [SetStatus ("复制失败: " ++ e)])%list).
Proof.
  intros w'. split; [exact (handler_returns (DoCopy (Raise e)) w)|].
  split; [apply copy_same|]. split; [apply copy_same|].
  split; [unfold w'; now rewrite !copy_writes|].
  unfold w', step. cbn [handler].
  destruct w as [ph ch hp hc d i cur sel u q cs].
  unfold copy_selected_color. run_handler.
  destruct sel as [c|]; [right; split; [eexists|]; reflexivity|].
  destruct (Deque.items d) as [|first l];
    [|right; split; [eexists|]; reflexivity].
  destruct cur as [c|]; [right; split; [eexists|]; reflexivity|].
  left. run_handler. split; reflexivity.
Qed.

End Settings.

(** ** Navigation and the hexadecimal form *)

Section Navigation.

(** X11. [select_history_index] for any index: nothing happens on an
    empty history; otherwise the cursor is the index clamped into
    [0, len - 1] (0 below, [len - 1] above), the colour there is selected,
    the swatch, the two labels and the status line show it, and nothing
    else changes. The current row of the list follows the cursor when the
    list has that row; when it has not (the rows of a pick are written by a
    later delivery) the list is left without a current row. *)
Theorem select_history_index_outcome (index : Z) (w : Window) :
  let w' := exec (select_history_index index) w in
  let n := Deque.len (history w) in
  let i := if index <? 0 then 0 else if n - 1 <? index then n - 1 else index in
  match colours w with
  | [] => w' = w
  | _ :: _ =>
      0 <= i < n /\
      exists c,
        nth_error (colours w) (Z.to_nat i) = Some c /\
        w' =
        set_ui
          (with_status ("已切换历史: " ++ rgb_to_hex_t c)
             (with_list_row
                (if i <? Z.of_nat (List.length (list_items (ui w)))
                 then i else -1)
                (with_label_rgb ("RGB: " ++ PyStr.str_tuple c)
                   (with_label_hex ("HEX: " ++ rgb_to_hex_t c)
                      (with_swatch
                         ("background-color: " ++ rgb_to_hex_t c
                          ++ "; border: 1px solid #000;") (ui w))))))
          (set_selected_rgb (Some c) (set_history_index i w))
  end.
Proof.
  intros w' n i. destruct (colours w) as [|c0 l] eqn:E.
  - now apply select_history_index_empty.
  - assert (Hn : 0 < n).
    { apply len_pos. rewrite E. discriminate. }
    assert (Hi : i = clamp index w).
    { unfold i, clamp. fold n.
      destruct (index <? 0) eqn:E1; [apply Z.ltb_lt in E1; lia|].
      apply Z.ltb_ge in E1.
      destruct (n - 1 <? index) eqn:E2;
        [apply Z.ltb_lt in E2 | apply Z.ltb_ge in E2]; lia. }
    assert (Hr : 0 <= i < Z.of_nat (List.length (colours w))).
    { rewrite Hi. unfold clamp, n, Deque.len, colours in *. lia. }
    split; [exact Hr|].
    destruct (getitem_in_range _ _ Hr) as (c & Hnth & Hget).
    exists c. rewrite <- E. split; [exact Hnth|].
    unfold w'. rewrite Hi in *. unfold clamp, colours in *.
    destruct w as [ph ch hp hc d j cur sel u q cs].
    unfold select_history_index. run_handler. cbn [history] in *.
    rewrite E. rewrite E in Hget. rewrite Hget. run_handler.
    rewrite (proj2 (Z.leb_le 0 _)) by lia. reflexivity.
Qed.

(** An arrow key between a pick and the delivery of its refresh: the
    cursor moves to 1, the list has no row yet and stays without a current
    row; after the delivery the refresh makes row 1 current. *)
Example arrow_before_refresh :
  let w := run (init_window 10)
             (picks [(1, 1, 1); (2, 2, 2)] ++ [DoKey Key_Down]) in
  history_index w = 1 /\
  selected_rgb w = Some (1, 1, 1) /\
  list_items (ui w) = [] /\
  list_row (ui w) = -1 /\
  list_row (ui (run w (repeat DoDeliver 10))) = 1.
Proof. vm_compute. repeat split. Qed.

(** X12. The two arrow keys undo each other: in every window the event
    loop reaches (for a positive capacity), Down then Up, and Up then
    Down, bring the cursor and the selected colour back and leave the
    history as it was. *)
Theorem arrows_inverse (m : nat) (es : list event) (k k' : key) :
  (0 < m)%nat ->
  (k = Key_Down /\ k' = Key_Up) \/ (k = Key_Up /\ k' = Key_Down) ->
  let w := run (init_window m) es in
  let w' := run w [DoKey k; DoKey k'] in
  history w' = history w /\
  history_index w' = history_index w /\
  selected_rgb w' = selected_rgb w.
Proof.
  intros Hpos Hk w w'.
  pose proof (proj2 (proj2 (reachable_ok m es)) Hpos) as Hsel.
  fold w in Hsel. unfold selection_ok in Hsel.
  destruct (colours w) as [|c0 l] eqn:E.
  - unfold w'. cbn [run fold_left]. unfold step. cbn [handler].
    rewrite (key_empty_run k w E). rewrite (key_empty_run k' w E).
    auto.
  - assert (Hne : colours w <> []) by (rewrite E; discriminate).
    destruct Hsel as (Hr & Hs). rewrite <- E in Hs.
    assert (Hd : exists d d' : Z,
               ((k = Key_Down /\ d = 1) \/ (k = Key_Up /\ d = -1)) /\
               ((k' = Key_Down /\ d' = 1) \/ (k' = Key_Up /\ d' = -1)) /\
               d + d' = 0).
    { destruct Hk as [[-> ->]|[-> ->]];
        [exists 1, (-1) | exists (-1), 1]; repeat split; auto. }
    destruct Hd as (d & d' & Hkd & Hkd' & Hsum).
    destruct (arrow_fields k d w Hkd Hne) as (Hh1 & Hi1 & _ & _).
    set (w1 := step w (DoKey k)) in *.
    assert (Hne1 : colours w1 <> []) by (unfold colours; now rewrite Hh1).
    destruct (arrow_fields k' d' w1 Hkd' Hne1) as (Hh2 & Hi2 & _ & Hs2).
    change (step w1 (DoKey k')) with w' in Hh2, Hi2, Hs2.
    assert (Hback : history_index w' = history_index w).
    { rewrite Hi2, Hi1, Hh1, Zplus_mod_idemp_l.
      replace (history_index w + d + d') with (history_index w) by lia.
      now apply Z.mod_small. }
    split; [now rewrite Hh2|]. split; [exact Hback|].
    rewrite Hs2, Hback, Hs. unfold colours. now rewrite Hh1.
Qed.

Lemma arrows_inverse_witness :
  (0 < 10)%nat /\
  ((Key_Up = Key_Down /\ Key_Down = Key_Up) \/
   (Key_Up = Key_Up /\ Key_Down = Key_Down)) /\
  let w := run (init_window 10) (picks [(1, 1, 1); (2, 2, 2); (3, 3, 3)]) in
  let w' := run w [DoKey Key_Up; DoKey Key_Down] in
  history w' = history w /\
  history_index w' = history_index w /\
  selected_rgb w' = selected_rgb w.
Proof.
  assert (Hpos : (0 < 10)%nat) by lia.
  assert (Hk : (Key_Up = Key_Down /\ Key_Down = Key_Up) \/
               (Key_Up = Key_Up /\ Key_Down = Key_Down))
    by (right; split; reflexivity).
  split; [exact Hpos|]. split; [exact Hk|].
  exact (arrows_inverse 10 (picks [(1, 1, 1); (2, 2, 2); (3, 3, 3)])
           Key_Up Key_Down Hpos Hk).
Defined.

Lemma upper_hex_digit_inj (a b : N) :
  (a < 16)%N -> (b < 16)%N ->
  PyStr.upper_hex_digit a = PyStr.upper_hex_digit b -> a = b.
Proof.
  intros Ha Hb Heq.
  assert (Hall :
    forallb
      (fun x =>
         forallb
           (fun y =>
              implb (Ascii.eqb (PyStr.upper_hex_digit (N.of_nat x))
                       (PyStr.upper_hex_digit (N.of_nat y)))
                (Nat.eqb x y))
           (seq 0 16))
      (seq 0 16) = true) by reflexivity.
  rewrite forallb_forall in Hall.
  assert (Hx : In (N.to_nat a) (seq 0 16)) by (apply in_seq; lia).
  assert (Hy : In (N.to_nat b) (seq 0 16)) by (apply in_seq; lia).
  specialize (Hall _ Hx). rewrite forallb_forall in Hall.
  specialize (Hall _ Hy). rewrite !Nnat.N2Nat.id, Heq, Ascii.eqb_refl in Hall.
  cbn [implb] in Hall. apply Nat.eqb_eq in Hall. lia.
Qed.

Lemma hex2_inj (a b : Z) : uint8 a -> uint8 b -> hex2 a = hex2 b -> a = b.
Proof.
  unfold uint8, hex2. intros Ha Hb [= Hhi Hlo].
  pose proof (Z.div_pos a 16). pose proof (Z.div_pos b 16).
  pose proof (Z.mod_pos_bound a 16). pose proof (Z.mod_pos_bound b 16).
  assert (a / 16 < 16) by (apply Z.div_lt_upper_bound; lia).
  assert (b / 16 < 16) by (apply Z.div_lt_upper_bound; lia).
  apply upper_hex_digit_inj in Hhi; [|lia|lia].
  apply upper_hex_digit_inj in Hlo; [|lia|lia].
  rewrite (Z.div_mod a 16), (Z.div_mod b 16) by lia. lia.
Qed.

(** X13. On colours made of bytes [rgb_to_hex] gives seven characters, a
    [#] and two upper-case hexadecimal digits for each of red, green and
    blue, and different colours never get the same text. *)
Theorem rgb_to_hex_bytes_injective (c1 c2 : rgb) :
  byte_colour c1 -> byte_colour c2 ->
  rgb_to_hex_t c1 = hex6 c1 /\
  String.length (rgb_to_hex_t c1) = 7%nat /\
  (rgb_to_hex_t c1 = rgb_to_hex_t c2 -> c1 = c2).
Proof.
  intros H1 H2.
  rewrite (rgb_to_hex_hex6 c1 H1), (rgb_to_hex_hex6 c2 H2).
  destruct c1 as [[r1 g1] b1], c2 as [[r2 g2] b2].
  destruct H1 as (Hr1 & Hg1 & Hb1), H2 as (Hr2 & Hg2 & Hb2).
  split; [reflexivity|]. split; [reflexivity|].
  unfold hex6. intros [= Hr Hr' Hg Hg' Hb Hb'].
  assert (Er : hex2 r1 = hex2 r2) by (unfold hex2; congruence).
  assert (Eg : hex2 g1 = hex2 g2) by (unfold hex2; congruence).
  assert (Eb : hex2 b1 = hex2 b2) by (unfold hex2; congruence).
  apply hex2_inj in Er; [|assumption|assumption].
  apply hex2_inj in Eg; [|assumption|assumption].
  apply hex2_inj in Eb; [|assumption|assumption].
  congruence.
Qed.

Lemma rgb_to_hex_bytes_injective_witness :
  byte_colour (255, 0, 171) /\ byte_colour (255, 0, 171) /\
  rgb_to_hex_t (255, 0, 171) = hex6 (255, 0, 171) /\
  String.length (rgb_to_hex_t (255, 0, 171)) = 7%nat /\
  (rgb_to_hex_t (255, 0, 171) = rgb_to_hex_t (255, 0, 171) ->
   (255, 0, 171) = (255, 0, 171)).
Proof.
  assert (H : byte_colour (255, 0, 171))
    by (unfold byte_colour, uint8; lia).
  split; [exact H|]. split; [exact H|].
  exact (rgb_to_hex_bytes_injective (255, 0, 171) (255, 0, 171) H H).
Defined.

(** X14. In every window the event loop reaches, the rebuild of lines
    222-226 (the [except] branch) computes the deque that lines 210-219
    compute: the fall-back and the main path agree. *)
Theorem rebuild_agrees (m : nat) (es : list event) (c : rgb) :
  let w := run (init_window m) es in
  history_rebuild c w = history_add c w.
Proof.
  intros w. apply (history_rebuild_agrees m).
  apply (reachable_ok m es).
Qed.

(** X16. [current_rgb] is the colour of the last pick whose sampler
    answered, whatever else happened since: clears, failed picks, keys,
    clicks, copies and registrations leave it alone. *)
Theorem current_rgb_is_last_sample (m : nat) (es : list event) :
  current_rgb (run (init_window m) es) = last_sample es None.
Proof. exact (run_current_rgb es (init_window m)). Qed.

(** X17. A registration renewed after a successful one removes exactly
    the two handles the first one returned, pick first, before it
    registers again. *)
Theorem reregistration_removes_previous
    (env env' : registrar) (w : Window) (hp hc : handle) :
  add_pick env = Ok hp -> add_copy env = Ok hc ->
  let w1 := step w (DoRegister env) in
  let w2 := step w1 (DoRegister env') in
  calls w2 =
  (calls w1 ++
   [RemoveHotkey hp; RemoveHotkey hc;
    AddHotkey (pick_hotkey w) Pick; AddHotkey (copy_hotkey w) Copy])%list.
Proof.
  intros Hp Hc w1 w2.
  destruct (register_hotkeys_fields env w)
    as (Hp1 & Hc1 & _ & Hph & Hch & _).
  change (exec (register_hotkeys env) w) with w1 in Hp1, Hc1, Hph, Hch.
  destruct (register_hotkeys_fields env' w1) as (_ & _ & Hcalls & _).
  change (exec (register_hotkeys env') w1) with w2 in Hcalls.
  rewrite Hcalls. unfold removals.
  rewrite Hp1, Hc1, Hp, Hc, Hph, Hch. reflexivity.
Qed.

Lemma reregistration_removes_previous_witness :
  add_pick (accepting 5%nat) = Ok 5%nat /\ add_copy (accepting 5%nat) = Ok 6%nat /\
  let w1 := step (init_window 10) (DoRegister (accepting 5%nat)) in
  let w2 := step w1 (DoRegister (accepting 7%nat)) in
  calls w2 =
  (calls w1 ++
   [RemoveHotkey 5%nat; RemoveHotkey 6%nat;
    AddHotkey (pick_hotkey (init_window 10)) Pick;
    AddHotkey (copy_hotkey (init_window 10)) Copy])%list.
Proof.
  split; [reflexivity|]. split; [reflexivity|].
  exact (reregistration_removes_previous (accepting 5%nat) (accepting 7%nat)
           (init_window 10) 5%nat 6%nat eq_refl eq_refl).
Defined.

End Navigation.
